(** * Data-source handlers of redash: a shallow embedding and its properties

    The development follows [redash/handlers/data_sources.py].  Python
    dictionaries are finite maps ([gmap]), Python lists are lists, a handler
    is a function from the persistent state and the request to the new
    persistent state and a response.  Collaborators that live in other
    modules of the repository ([redash.models], [redash.permissions],
    [redash.utils.configuration], [redash.query_runner]) are modelled from
    their specification and marked as such. *)

From Stdlib Require Import ZArith String Sorted Permutation.
From stdpp Require Import gmap strings list fin_maps sorting.

Local Open Scope Z_scope.
Local Open Scope string_scope.

(** ** Python built-ins used by the handlers *)

(** [sorted(iterable, key=...)]: a stable sort by key.  Every stable sort
    computes the same list, so insertion at the first position whose key is
    not smaller, element by element from the right, is as good as any. *)
Section sorted.
Context {A K : Type} (key : A → K) (le : relation K).
Context `{!∀ x y, Decision (le x y)}.

Fixpoint insert_by (x : A) (l : list A) : list A :=
  match l with
  | [] => [x]
  | y :: l' =>
      if decide (le (key x) (key y)) then x :: y :: l' else y :: insert_by x l'
  end.

Definition sorted (l : list A) : list A := foldr insert_by [] l.
End sorted.

(** [dict.values()] *)
Definition values {K A : Type} `{Countable K} (m : gmap K A) : list A :=
  (map_to_list m).*2.

(** [all(iterable)], the truth value of an element given by [truthy] *)
Definition all {A : Type} (truthy : A → bool) (xs : list A) : bool :=
  forallb truthy xs.

(** [funcy.project(mapping, keys)]: the sub-dictionary of [mapping] at those
    of [keys] that it has. *)
Definition project {V : Type} (mapping : gmap Z V) (keys : list Z) : gmap Z V :=
  list_to_map (omap (λ k, (λ v, (k, v)) <$> mapping !! k) keys).

(** ** JSON values of request bodies *)

Inductive atom :=
  | ANull
  | ABool (b : bool)
  | ANum (n : Z)
  | AStr (s : string).

Inductive json :=
  | JAtom (a : atom)
  | JObject (o : gmap string atom).

Global Instance atom_eq_dec : EqDecision atom.
Proof. solve_decision. Defined.
Global Instance json_eq_dec : EqDecision json.
Proof. solve_decision. Defined.

(** ** Outcome of a handler *)

Inductive exception := KeyError | DoesNotExist.

(** A handler returns a payload, is cut short by [abort(status)], or lets an
    exception escape. *)
Inductive response (A : Type) :=
  | Ok (payload : A)
  | Abort (status : Z)
  | Raise (e : exception).
Arguments Ok {A} payload.
Arguments Abort {A} status.
Arguments Raise {A} e.

Definition is_error {A : Type} (r : response A) : bool :=
  match r with Ok _ => false | _ => true end.

(** ** Schema registry and configuration container *)

(** Modelled from the spec: the type a schema declares for a field
    ([redash.query_runner] is not part of the sources). *)
Inductive field_type := TString | TNumber | TBoolean | TSecret.

(** Modelled from the spec: a field descriptor of a ConnectorSchema
    ([redash.query_runner] is not part of the sources). *)
Record FieldDescriptor := {
  fd_name : string;
  fd_type : field_type;
  fd_required : bool
}.

Abbreviation ConnectorSchema := (list FieldDescriptor).

(** Modelled from the spec: the violations validation reports, and the
    [ValidationError] of [redash.utils.configuration] that names the
    offending field. *)
Inductive violation := MissingRequired | WrongType | UnknownField.

Record ValidationError := { field : string; reason : violation }.

(** Modelled from the spec: the fields flagged secret. *)
Definition is_secret (f : FieldDescriptor) : bool :=
  match fd_type f with TSecret => true | _ => false end.

(** Modelled from the spec: a value matches the type its field declares; a
    secret is a string. *)
Definition has_type (t : field_type) (v : atom) : bool :=
  match t, v with
  | TString, AStr _ | TSecret, AStr _ | TNumber, ANum _ | TBoolean, ABool _ => true
  | _, _ => false
  end.

(** Modelled from the spec: validation of a value mapping against a schema
    ([redash.utils.configuration] is not part of the sources).  The fields
    are checked in the order the schema declares them, each for presence (if
    required) and type; a key the schema does not declare is a violation. *)
Fixpoint check_fields (schema : ConnectorSchema) (vals : gmap string atom)
    : option ValidationError :=
  match schema with
  | [] => None
  | f :: rest =>
      match vals !! fd_name f with
      | None =>
          if fd_required f
          then Some {| field := fd_name f; reason := MissingRequired |}
          else check_fields rest vals
      | Some v =>
          if has_type (fd_type f) v
          then check_fields rest vals
          else Some {| field := fd_name f; reason := WrongType |}
      end
  end.

(** Modelled from the spec: the keys of the mapping the schema does not
    declare. *)
Definition unknown_fields (schema : ConnectorSchema) (vals : gmap string atom)
    : list string :=
  filter (λ k, k ∉ fd_name <$> schema) (map_to_list vals).*1.

(** Modelled from the spec: the first violation, the declared fields
    before the unknown keys; [None] when the mapping is valid. *)
Definition validate_values (schema : ConnectorSchema) (vals : gmap string atom)
    : option ValidationError :=
  match check_fields schema vals with
  | Some e => Some e
  | None =>
      match unknown_fields schema vals with
      | [] => None
      | k :: _ => Some {| field := k; reason := UnknownField |}
      end
  end.

(** Modelled from the spec: the names of the fields flagged secret. *)
Definition secret_names (schema : ConnectorSchema) : list string :=
  fd_name <$> filter (λ f, is_secret f = true) schema.

Module ConfigurationContainer.
(** Modelled from the spec: the Configuration Container of
    [redash.utils.configuration], which is not part of the sources.  It
    holds the schema it validates against and the configuration it was
    given; the handler passes the request's [options] value as it came, so
    the configuration is a JSON value, valid only when it is a mapping. *)
Record t := { schema : ConnectorSchema; config : json }.

(** Modelled from the spec: [ConfigurationContainer(config, schema)], as
    the create handler calls it; validity is asked afterwards. *)
Definition new (config : json) (schema : ConnectorSchema) : t :=
  {| schema := schema; config := config |}.

(** Modelled from the spec: the current values against the current schema;
    a configuration that is no mapping is of the wrong type as a whole. *)
Definition validate (c : t) : option ValidationError :=
  match config c with
  | JObject vals => validate_values (schema c) vals
  | JAtom _ => Some {| field := ""; reason := WrongType |}
  end.

(** Modelled from the spec: [isValid()], the check that does not throw. *)
Definition is_valid (c : t) : bool := bool_decide (validate c = None).

(** Modelled from the spec: [setSchema] replaces the schema; nothing is
    validated here. *)
Definition set_schema (s : ConnectorSchema) (c : t) : t :=
  {| schema := s; config := config c |}.

(** Modelled from the spec: [update] merges, validates the whole merged
    mapping, then commits: the new container on success, the error (and no
    new container) on failure. *)
Definition update (partial : json) (c : t) : ValidationError + t :=
  match config c, partial with
  | JObject old, JObject new_values =>
      let merged := {| schema := schema c; config := JObject (new_values ∪ old) |} in
      match validate merged with
      | None => inr merged
      | Some e => inl e
      end
  | _, _ => inl {| field := ""; reason := WrongType |}
  end.

(** Modelled from the spec: [toDict] gives the full values when secrets are
    revealed; otherwise the fields the schema flags secret are left out. *)
Definition to_dict (reveal_secrets : bool) (c : t) : json :=
  if reveal_secrets then config c
  else
    match config c with
    | JObject vals =>
        JObject (filter (λ kv, kv.1 ∉ secret_names (schema c)) vals)
    | JAtom a => JAtom a
    end.
End ConfigurationContainer.

Module QueryRunner.
(** Modelled from the spec: what the registry knows of a connector type,
    its identifier, display name and configuration schema. *)
Record t := {
  type : string;
  name : string;
  configuration_schema : ConnectorSchema
}.

(** Modelled from the spec: the listing shows the connector type and its
    display name. *)
Definition to_dict (q : t) : string * string := (type q, name q).
End QueryRunner.

(** The module-level dictionary [query_runners] of [redash.query_runner], as
    the (key, value) pairs in the order the dictionary enumerates them. *)
Abbreviation registry := (list (string * QueryRunner.t)).

(** [query_runners.get(k)] *)
Definition registry_get (query_runners : registry) (k : string)
    : option QueryRunner.t :=
  snd <$> find (λ kv, bool_decide (kv.1 = k)) query_runners.

(** Modelled from the spec: [lookup(connectorType)] of the Schema Registry.
    A request value that is not a string is the key of no connector type. *)
Definition get_configuration_schema_for_type
    (query_runners : registry) (type : json) : option ConnectorSchema :=
  match type with
  | JAtom (AStr t) => QueryRunner.configuration_schema <$> registry_get query_runners t
  | _ => None
  end.

(** ** Entities *)

(** Modelled from the spec: the permission level a group holds on a data
    source, the value type of [DataSource.groups] ([redash.models] is not
    part of the sources).  The listing reads a level through its truth value
    and stores the conjunction under [view_only]: the read-only grant is the
    true one. *)
Inductive level := Read | Write.

Global Instance level_eq_dec : EqDecision level.
Proof. solve_decision. Defined.

(** Modelled from the spec: the truth value of a level, see [level]. *)
Definition truthy (l : level) : bool :=
  match l with Read => true | Write => false end.

Module User.
(** Modelled from the spec: the requesting identity, its group memberships
    and global capabilities ([redash.models] is not part of the sources). *)
Record t := {
  id : Z;
  groups : list Z;
  permissions : list string
}.

(** Modelled from the spec: the requester holds the capability. *)
Definition has_permission (u : t) (p : string) : bool :=
  bool_decide (p ∈ permissions u).
End User.

Module Dict.
(** Modelled from the spec: the serialization of a data source, the result
    of [DataSource.to_dict] ([redash.models] is not part of the sources). *)
Record t := {
  id : Z;
  name : json;
  type : json;
  paused : bool;
  pause_reason : option json;
  options : json
}.
End Dict.

Module DataSource.
(** Modelled from the spec: the Data Source Entity of [redash.models],
    which is not part of the sources.  [name] and [type] hold the request
    values as the handlers assign them. *)
Record t := {
  id : Z;
  org : Z;
  name : json;
  type : json;
  options : ConfigurationContainer.t;
  groups : gmap Z level;
  paused : bool;
  pause_reason : option json
}.

(** Modelled from the spec: [pause] moves to Paused from either state and
    records the reason given, absent or not. *)
Definition pause (reason : option json) (ds : t) : t :=
  {| id := id ds; org := org ds; name := name ds; type := type ds;
     options := options ds; groups := groups ds;
     paused := true; pause_reason := reason |}.

(** Modelled from the spec: [resume] moves to Active from either state and
    clears the reason. *)
Definition resume (ds : t) : t :=
  {| id := id ds; org := org ds; name := name ds; type := type ds;
     options := options ds; groups := groups ds;
     paused := false; pause_reason := None |}.

(** Modelled from the spec: the full entity with unmasked options when
    [all] is set, the masked entity otherwise. *)
Definition to_dict (all : bool) (ds : t) : Dict.t :=
  {| Dict.id := id ds; Dict.name := name ds; Dict.type := type ds;
     Dict.paused := paused ds; Dict.pause_reason := pause_reason ds;
     Dict.options := ConfigurationContainer.to_dict all (options ds) |}.
End DataSource.

(** ** Persistent state *)

(** The audit event a handler records: the dictionary it passes to
    [record_event]. *)
Record Event := {
  action : string;
  object_id : Z;
  object_type : string
}.

(** Modelled from the spec: the storage and audit collaborators, as the
    stored data sources by id, the next free id, and the audit events
    recorded so far. *)
Record World := {
  db : gmap Z DataSource.t;
  next_id : Z;
  events : list Event
}.

(** Modelled from the spec: [data_source.save()] commits the entity under
    its id. *)
Definition save (ds : DataSource.t) (w : World) : World :=
  {| db := <[DataSource.id ds := ds]> (db w);
     next_id := next_id w; events := events w |}.

(** Modelled from the spec: [self.record_event(...)] emits an audit
    event. *)
Definition record_event (e : Event) (w : World) : World :=
  {| db := db w; next_id := next_id w; events := events w ++ [e] |}.

(** Modelled from the spec: [models.DataSource.get_by_id_and_org], the
    stored entity of that id when it belongs to the organization. *)
Definition get_by_id_and_org (w : World) (data_source_id org : Z)
    : option DataSource.t :=
  match db w !! data_source_id with
  | Some ds => if bool_decide (DataSource.org ds = org) then Some ds else None
  | None => None
  end.

(** Modelled from the spec: creation persists the entity under a fresh id in
    state Active, visible to the group given. *)
Definition create_with_group (org default_group : Z) (name type : json)
    (options : ConfigurationContainer.t) (w : World) : World * DataSource.t :=
  let ds :=
    {| DataSource.id := next_id w; DataSource.org := org;
       DataSource.name := name; DataSource.type := type;
       DataSource.options := options;
       DataSource.groups := {[default_group := Write]};
       DataSource.paused := false; DataSource.pause_reason := None |} in
  ({| db := <[next_id w := ds]> (db w);
      next_id := next_id w + 1; events := events w |}, ds).

(** ** Permissions *)

Module permissions.
(** Modelled from the spec: the constant the live-schema handler passes to
    ask for read-level access ([redash.permissions] is not part of the
    sources). *)
Definition view_only : bool := true.

(** Modelled from the spec: an administrator has access whatever the
    groups; anyone else needs a shared group, and for more than read
    access a shared group that grants write ([redash.permissions] is not
    part of the sources). *)
Definition has_access (object_groups : gmap Z level) (user : User.t)
    (need_view_only : bool) : bool :=
  if User.has_permission user "admin" then true
  else
    let matching := project object_groups (User.groups user) in
    if bool_decide (matching = ∅) then false
    else if need_view_only then true
    else negb (all truthy (values matching)).
End permissions.

(** The request-scoped part of a handler object ([self] in
    [redash.handlers.base.BaseResource]); creation puts a new data source
    in [default_group]. *)
Record BaseResource := {
  current_user : User.t;
  current_org : Z;
  default_group : Z
}.

(** Modelled from the spec: the capability check behind [@require_admin];
    a requester who fails it is answered 403. *)
Definition is_admin (self : BaseResource) : bool :=
  User.has_permission (current_user self) "admin".

(** Modelled from the spec: [get_object_or_404] around
    [models.DataSource.get_by_id_and_org]; the handler answers 404 where the
    bare query raises ([redash.handlers.base] is not part of the sources). *)
Definition get_object_or_404 (w : World) (data_source_id org : Z)
    : option DataSource.t :=
  get_by_id_and_org w data_source_id org.

(** [dict.get(k)] on a parsed JSON object: JSON null reads as no value. *)
Definition json_get (data : gmap string json) (k : string) : option json :=
  match data !! k with
  | Some (JAtom ANull) => None
  | r => r
  end.

(** ** The handlers *)

Module DataSourceTypeListResource.
Definition get (query_runners : registry) (self : BaseResource)
    : response (list (string * string)) :=
  if is_admin self
  then Ok (QueryRunner.to_dict <$> sorted QueryRunner.name String.le query_runners.*2)
  else Abort 403.
End DataSourceTypeListResource.

Module DataSourceResource.
Definition get (self : BaseResource) (w : World) (data_source_id : Z)
    : response Dict.t :=
  if is_admin self then
    match get_by_id_and_org w data_source_id (current_org self) with
    | Some data_source => Ok (DataSource.to_dict true data_source)
    | None => Raise DoesNotExist
    end
  else Abort 403.

Definition post (query_runners : registry) (self : BaseResource) (w : World)
    (data_source_id : Z) (req : gmap string json) : World * response Dict.t :=
  if is_admin self then
    match get_by_id_and_org w data_source_id (current_org self) with
    | None => (w, Raise DoesNotExist)
    | Some data_source =>
    match req !! "type" with
    | None => (w, Raise KeyError)
    | Some type =>
    match get_configuration_schema_for_type query_runners type with
    | None => (w, Abort 400)
    | Some schema =>
    let options :=
      ConfigurationContainer.set_schema schema (DataSource.options data_source) in
    match req !! "options" with
    | None => (w, Raise KeyError)
    | Some new_options =>
    match ConfigurationContainer.update new_options options with
    | inl _ => (w, Abort 400)
    | inr options =>
    match req !! "name" with
    | None => (w, Raise KeyError)
    | Some name =>
        let data_source :=
          {| DataSource.id := DataSource.id data_source;
             DataSource.org := DataSource.org data_source;
             DataSource.name := name;
             DataSource.type := type;
             DataSource.options := options;
             DataSource.groups := DataSource.groups data_source;
             DataSource.paused := DataSource.paused data_source;
             DataSource.pause_reason := DataSource.pause_reason data_source |} in
        (save data_source w, Ok (DataSource.to_dict true data_source))
    end end end end end end
  else (w, Abort 403).

(** [data_source.delete_instance(recursive=True)] takes the data source out
    of the store; its group mapping is part of the entity here and goes with
    it.  The handler answers an empty 204 response. *)
Definition delete (self : BaseResource) (w : World) (data_source_id : Z)
    : World * response unit :=
  if is_admin self then
    match get_by_id_and_org w data_source_id (current_org self) with
    | None => (w, Raise DoesNotExist)
    | Some data_source =>
        ({| db := base.delete (DataSource.id data_source) (db w);
            next_id := next_id w; events := events w |}, Ok ())
    end
  else (w, Abort 403).
End DataSourceResource.

Module DataSourceListResource.
(** An entry of the listing: the masked serialization and the flag stored
    under [view_only]. *)
Record entry := { d : Dict.t; view_only : bool }.

Definition entry_id (e : entry) : Z := Dict.id (d e).

Definition entry_of (user : User.t) (ds : DataSource.t) : entry :=
  {| d := DataSource.to_dict false ds;
     view_only :=
       all truthy (values (project (DataSource.groups ds) (User.groups user))) |}.

(** One turn of the loop over [data_sources]. *)
Definition visit (user : User.t) (response : gmap Z entry) (ds : DataSource.t)
    : gmap Z entry :=
  if bool_decide (is_Some (response !! DataSource.id ds)) then response
  else <[DataSource.id ds := entry_of user ds]> response.

Definition listing (user : User.t) (data_sources : list DataSource.t)
    : list entry :=
  sorted entry_id Z.le (values (foldl (visit user) ∅ data_sources)).

(** [DataSource_all] is the storage query [models.DataSource.all]: the
    data sources of an organization, restricted to those visible to the
    groups when groups are given. *)
Definition get (DataSource_all : World → Z → option (list Z) → list DataSource.t)
    (self : BaseResource) (w : World) : response (list entry) :=
  if User.has_permission (current_user self) "list_data_sources" then
    let data_sources :=
      if is_admin self
      then DataSource_all w (current_org self) None
      else DataSource_all w (current_org self)
             (Some (User.groups (current_user self))) in
    Ok (listing (current_user self) data_sources)
  else Abort 403.

Definition required_fields : list string := ["options"; "name"; "type"].

Definition post (query_runners : registry) (self : BaseResource) (w : World)
    (req : gmap string json) : World * response Dict.t :=
  if is_admin self then
    if existsb (λ f, bool_decide (req !! f = None)) required_fields
    then (w, Abort 400)
    else
    match req !! "type" with
    | None => (w, Raise KeyError)
    | Some type =>
    match get_configuration_schema_for_type query_runners type with
    | None => (w, Abort 400)
    | Some schema =>
    match req !! "options" with
    | None => (w, Raise KeyError)
    | Some options =>
    let config := ConfigurationContainer.new options schema in
    if negb (ConfigurationContainer.is_valid config) then (w, Abort 400)
    else
    match req !! "name" with
    | None => (w, Raise KeyError)
    | Some name =>
        let '(w1, datasource) :=
          create_with_group (current_org self) (default_group self)
            name type config w in
        let w2 :=
          record_event {| action := "create";
                          object_id := DataSource.id datasource;
                          object_type := "datasource" |} w1 in
        (w2, Ok (DataSource.to_dict true datasource))
    end end end end
  else (w, Abort 403).
End DataSourceListResource.

Module DataSourceSchemaResource.
(** [get_schema] is the connector's live introspection, which may fail. *)
Definition get {S : Type} (get_schema : DataSource.t → response S)
    (self : BaseResource) (w : World) (data_source_id : Z) : response S :=
  match get_object_or_404 w data_source_id (current_org self) with
  | None => Abort 404
  | Some data_source =>
      if permissions.has_access (DataSource.groups data_source)
           (current_user self) permissions.view_only
      then get_schema data_source
      else Abort 403
  end.
End DataSourceSchemaResource.

Module DataSourcePauseResource.
(** The reason of a pause request: [data.get('reason')] when the parsed JSON
    body [data] is there and not empty, the query parameter otherwise. *)
Definition request_reason (data : option (gmap string json))
    (args : gmap string string) : option json :=
  match data with
  | Some body =>
      if bool_decide (body = ∅)
      then (λ s, JAtom (AStr s)) <$> args !! "reason"
      else json_get body "reason"
  | None => (λ s, JAtom (AStr s)) <$> args !! "reason"
  end.

Definition post (self : BaseResource) (w : World) (data_source_id : Z)
    (data : option (gmap string json)) (args : gmap string string)
    : World * response Dict.t :=
  if is_admin self then
    match get_object_or_404 w data_source_id (current_org self) with
    | None => (w, Abort 404)
    | Some data_source =>
        let reason := request_reason data args in
        let data_source := DataSource.pause reason data_source in
        let w1 := save data_source w in
        let w2 :=
          record_event {| action := "pause";
                          object_id := DataSource.id data_source;
                          object_type := "datasource" |} w1 in
        (w2, Ok (DataSource.to_dict false data_source))
    end
  else (w, Abort 403).

Definition delete (self : BaseResource) (w : World) (data_source_id : Z)
    : World * response Dict.t :=
  if is_admin self then
    match get_object_or_404 w data_source_id (current_org self) with
    | None => (w, Abort 404)
    | Some data_source =>
        let data_source := DataSource.resume data_source in
        let w1 := save data_source w in
        let w2 :=
          record_event {| action := "resume";
                          object_id := DataSource.id data_source;
                          object_type := "datasource" |} w1 in
        (w2, Ok (DataSource.to_dict false data_source))
    end
  else (w, Abort 403).
End DataSourcePauseResource.

(** ** Predicates of the specification *)

(** The first of [rows] whose id is [i]. *)
Definition first_seen (i : Z) (rows : list DataSource.t) : option DataSource.t :=
  find (λ ds, bool_decide (DataSource.id ds = i)) rows.

(** A row is the stored entity of its id. *)
Definition stored (w : World) (ds : DataSource.t) : Prop :=
  db w !! DataSource.id ds = Some ds.

(** Merged across all groups, in the words of the specification: with [R]
    the requester's group set and [G] the resource's group-permission
    mapping, the flag is true if and only if the intersection of [R] and
    [keys(G)] is non-empty and every permission level at the keys in the
    intersection is read. *)
Definition merged_view_only (R : gset Z) (G : gmap Z level) : bool :=
  bool_decide (R ∩ dom G ≠ ∅
               ∧ set_Forall (λ g, G !! g = Some Read) (R ∩ dom G)).

(** A request is said to carry a reason when its JSON body names it under
    [reason], or when it has no body and the query parameter [reason] gives
    it; a request with no body and no such parameter carries no reason. *)
Inductive carries_reason
    : option (gmap string json) → gmap string string → option json → Prop :=
  | reason_in_body body args v :
      body !! "reason" = Some v → v ≠ JAtom ANull →
      carries_reason (Some body) args (Some v)
  | reason_in_query args s :
      args !! "reason" = Some s →
      carries_reason None args (Some (JAtom (AStr s)))
  | reason_not_given args :
      args !! "reason" = None →
      carries_reason None args None.

(** The order the specification asks of the listing, on (connector type,
    display name) pairs: ascending by display name, and by connector type
    identifier where the display names are equal. *)
Definition name_then_type (a b : string * string) : Prop :=
  (a.2 ≠ b.2 ∧ (a.2 ≤ b.2)%string) ∨ (a.2 = b.2 ∧ (a.1 ≤ b.1)%string).

(** An update the handler must refuse: the connector type of the request is
    unknown to the registry, or the options of the request, merged into the
    stored ones, do not validate against the schema of the new type. *)
Definition update_rejected (query_runners : registry) (ds : DataSource.t)
    (req : gmap string json) : Prop :=
  ∃ type, req !! "type" = Some type ∧
    match get_configuration_schema_for_type query_runners type with
    | None => True
    | Some schema =>
        ∃ new_options e,
          req !! "options" = Some new_options ∧
          ConfigurationContainer.update new_options
            (ConfigurationContainer.set_schema schema (DataSource.options ds))
          = inl e
    end.

(** What a create request must satisfy: the fields name, type and options
    are present, the registry knows the connector type, and the options
    validate against the schema of that type. *)
Definition create_accepted (query_runners : registry) (req : gmap string json)
    : bool :=
  bool_decide (is_Some (req !! "name"))
  && match req !! "type", req !! "options" with
     | Some type, Some options =>
         match get_configuration_schema_for_type query_runners type with
         | Some schema =>
             ConfigurationContainer.is_valid
               (ConfigurationContainer.new options schema)
         | None => false
         end
     | _, _ => false
     end.

(** Every stored data source sits under its own id. *)
Definition well_keyed (w : World) : Prop :=
  ∀ k ds, db w !! k = Some ds → DataSource.id ds = k.

(** Two data sources that differ at most in the values of the fields their
    schema flags secret. *)
Definition same_but_secrets (ds1 ds2 : DataSource.t) : Prop :=
  DataSource.id ds1 = DataSource.id ds2
  ∧ DataSource.org ds1 = DataSource.org ds2
  ∧ DataSource.name ds1 = DataSource.name ds2
  ∧ DataSource.type ds1 = DataSource.type ds2
  ∧ DataSource.groups ds1 = DataSource.groups ds2
  ∧ DataSource.paused ds1 = DataSource.paused ds2
  ∧ DataSource.pause_reason ds1 = DataSource.pause_reason ds2
  ∧ ConfigurationContainer.schema (DataSource.options ds1)
    = ConfigurationContainer.schema (DataSource.options ds2)
  ∧ ∃ vals1 vals2,
      ConfigurationContainer.config (DataSource.options ds1) = JObject vals1
      ∧ ConfigurationContainer.config (DataSource.options ds2) = JObject vals2
      ∧ ∀ k, k ∉ secret_names (ConfigurationContainer.schema (DataSource.options ds1)) →
             vals1 !! k = vals2 !! k.

(** Rows of equal id are one and the same row, as when each row is the
    stored entity of its id. *)
Definition same_id_same_row (rows : list DataSource.t) : Prop :=
  ∀ a b, a ∈ rows → b ∈ rows → DataSource.id a = DataSource.id b → a = b.

(** A request for an update that lacks a field the handler reads: the type;
    or, the type being known, the options; or, the options also being
    accepted, the name. *)
Definition update_lacks_field (query_runners : registry) (ds : DataSource.t)
    (req : gmap string json) : Prop :=
  req !! "type" = None
  ∨ ∃ type schema,
      req !! "type" = Some type
      ∧ get_configuration_schema_for_type query_runners type = Some schema
      ∧ (req !! "options" = None
         ∨ ∃ new_options c,
             req !! "options" = Some new_options
             ∧ ConfigurationContainer.update new_options
                 (ConfigurationContainer.set_schema schema (DataSource.options ds))
               = inr c
             ∧ req !! "name" = None).

(** The data source an update writes: name, type and options are new, the
    rest is the stored entity's. *)
Definition updated (ds : DataSource.t) (name type : json)
    (options : ConfigurationContainer.t) : DataSource.t :=
  {| DataSource.id := DataSource.id ds; DataSource.org := DataSource.org ds;
     DataSource.name := name; DataSource.type := type;
     DataSource.options := options;
     DataSource.groups := DataSource.groups ds;
     DataSource.paused := DataSource.paused ds;
     DataSource.pause_reason := DataSource.pause_reason ds |}.

(** ** Sample data *)

Definition sample_container : ConfigurationContainer.t :=
  {| ConfigurationContainer.schema :=
       [ {| fd_name := "host"; fd_type := TString; fd_required := true |};
         {| fd_name := "password"; fd_type := TSecret; fd_required := true |} ];
     ConfigurationContainer.config :=
       JObject {[ "host" := AStr "db"; "password" := AStr "x" ]} |}.

Definition sample_source (i : Z) (groups : gmap Z level) : DataSource.t :=
  {| DataSource.id := i; DataSource.org := 1;
     DataSource.name := JAtom (AStr "warehouse");
     DataSource.type := JAtom (AStr "pg");
     DataSource.options := sample_container;
     DataSource.groups := groups;
     DataSource.paused := false; DataSource.pause_reason := None |}.

Definition sample_member : User.t :=
  {| User.id := 7; User.groups := [1; 2]; User.permissions := ["list_data_sources"] |}.

Definition sample_admin : User.t :=
  {| User.id := 1; User.groups := [9];
     User.permissions := ["admin"; "list_data_sources"] |}.

Definition sample_world : World :=
  {| db := {[ 5 := sample_source 5 {[ 1 := Read; 2 := Write; 3 := Read ]};
              3 := sample_source 3 {[ 2 := Read ]} ]};
     next_id := 6; events := [] |}.

Definition sample_schema : ConnectorSchema :=
  [ {| fd_name := "host"; fd_type := TString; fd_required := true |};
    {| fd_name := "port"; fd_type := TNumber; fd_required := true |};
    {| fd_name := "password"; fd_type := TSecret; fd_required := true |} ].

Definition sample_runner (type name : string) : QueryRunner.t :=
  {| QueryRunner.type := type; QueryRunner.name := name;
     QueryRunner.configuration_schema := sample_schema |}.

(** A registry that enumerates two connector types of one display name, the
    greater identifier first. *)
Definition sample_registry : registry :=
  [ ("sqlite", sample_runner "sqlite" "Sqlite");
    ("rds_mysql", sample_runner "rds_mysql" "MySQL");
    ("mysql", sample_runner "mysql" "MySQL") ].

Definition sample_admin_request : BaseResource :=
  {| current_user := sample_admin; current_org := 1; default_group := 1 |}.

Definition sample_update : gmap string json :=
  {[ "type" := JAtom (AStr "mysql");
     "name" := JAtom (AStr "warehouse");
     "options" := JObject {[ "port" := AStr "bad" ]} ]}.

Definition sample_create : gmap string json :=
  {[ "type" := JAtom (AStr "oracle");
     "name" := JAtom (AStr "ledger");
     "options" := JObject {[ "host" := AStr "db"; "port" := ANum 1521;
                             "password" := AStr "x" ]} ]}.

Definition sample_world_other_secret : World :=
  {| db := {[ 5 := {| DataSource.id := 5; DataSource.org := 1;
                      DataSource.name := JAtom (AStr "warehouse");
                      DataSource.type := JAtom (AStr "pg");
                      DataSource.options :=
                        {| ConfigurationContainer.schema :=
                             ConfigurationContainer.schema sample_container;
                           ConfigurationContainer.config :=
                             JObject {[ "host" := AStr "db";
                                        "password" := AStr "hunter2" ]} |};
                      DataSource.groups := {[ 1 := Read; 2 := Write; 3 := Read ]};
                      DataSource.paused := false;
                      DataSource.pause_reason := None |} ]};
     next_id := 6; events := [] |}.

Definition sample_member_request : BaseResource :=
  {| current_user := sample_member; current_org := 1; default_group := 1 |}.

Definition sample_foreign_admin_request : BaseResource :=
  {| current_user := sample_admin; current_org := 2; default_group := 1 |}.

Definition sample_update_without_name : gmap string json :=
  {[ "type" := JAtom (AStr "mysql");
     "options" := JObject {[ "port" := ANum 5432 ]} ]}.

Definition sample_update_accepted : gmap string json :=
  {[ "type" := JAtom (AStr "mysql");
     "name" := JAtom (AStr "replica");
     "options" := JObject {[ "port" := ANum 5432 ]} ]}.

(** * Properties *)

(** ** The stable sort *)

Section sorted_facts.
Context {A K : Type} (key : A → K) (le : relation K).
Context `{!∀ x y, Decision (le x y)}.

Local Abbreviation by_key := (λ a b, le (key a) (key b)).

Lemma insert_by_Permutation x l : insert_by key le x l ≡ₚ x :: l.
Proof.
  induction l as [|y l IH]; simpl; [done|].
  case_decide; [done|]. rewrite IH. apply perm_swap.
Qed.

Lemma sorted_Permutation l : sorted key le l ≡ₚ l.
Proof.
  induction l as [|x l IH]; simpl; [done|].
  unfold sorted in *. by rewrite insert_by_Permutation, IH.
Qed.

Lemma elem_of_sorted x l : x ∈ sorted key le l ↔ x ∈ l.
Proof. by rewrite sorted_Permutation. Qed.

Lemma insert_by_StronglySorted `{!Total le, !Transitive le} x l :
  StronglySorted by_key l → StronglySorted by_key (insert_by key le x l).
Proof.
  induction 1 as [|y l Hl IH Hy]; simpl.
  - repeat constructor.
  - case_decide as Hxy.
    + constructor; [by constructor|].
      constructor; [done|].
      eapply Forall_impl; [exact Hy|]. intros z Hz. by etrans.
    + constructor; [done|].
      rewrite insert_by_Permutation. constructor; [|done].
      by destruct (total le (key x) (key y)).
Qed.

Lemma sorted_StronglySorted `{!Total le, !Transitive le} l :
  StronglySorted by_key (sorted key le l).
Proof.
  induction l as [|x l IH]; simpl; [constructor|].
  by apply insert_by_StronglySorted.
Qed.

(** Stability: elements of equal key keep the order they came in. *)
Lemma insert_by_filter_key `{!Reflexive le, !EqDecision K} k x l :
  filter (λ y, key y = k) (insert_by key le x l)
  = filter (λ y, key y = k) (x :: l).
Proof.
  induction l as [|y l IH]; simpl; [done|].
  case_decide as Hxy; [done|].
  rewrite filter_cons, IH, !filter_cons.
  destruct (decide (key y = k)) as [Hy|Hy], (decide (key x = k)) as [Hx|Hx];
    try done.
  destruct Hxy. by rewrite Hx, Hy.
Qed.

Lemma sorted_stable `{!Reflexive le, !EqDecision K} k l :
  filter (λ y, key y = k) (sorted key le l) = filter (λ y, key y = k) l.
Proof.
  induction l as [|x l IH]; simpl; [done|].
  unfold sorted in *. rewrite insert_by_filter_key, !filter_cons, IH. done.
Qed.
End sorted_facts.

Lemma StronglySorted_le_NoDup_lt (l : list Z) :
  StronglySorted Z.le l → NoDup l → StronglySorted Z.lt l.
Proof.
  induction 1 as [|x l Hl IH Hx]; intros Hnd; [constructor|].
  apply NoDup_cons in Hnd as [Hni Hnd].
  constructor; [by apply IH|].
  apply Forall_forall. intros y Hy.
  rewrite Forall_forall in Hx. specialize (Hx y Hy).
  assert (x ≠ y) by (intros ->; done). lia.
Qed.

(** ** Dictionaries *)

Lemma elem_of_values {K A : Type} `{Countable K} (m : gmap K A) (x : A) :
  x ∈ values m ↔ ∃ k, m !! k = Some x.
Proof.
  unfold values. rewrite list_elem_of_fmap. split.
  - intros [[k y] [-> Hin]]. exists k. by apply elem_of_map_to_list.
  - intros [k Hk]. exists (k, x). split; [done|]. by apply elem_of_map_to_list.
Qed.

Lemma lookup_project {V : Type} (mapping : gmap Z V) (keys : list Z) (k : Z) :
  project mapping keys !! k = if bool_decide (k ∈ keys) then mapping !! k else None.
Proof.
  unfold project. induction keys as [|k' keys IH]; csimpl.
  - by rewrite lookup_empty.
  - destruct (mapping !! k') as [v|] eqn:Hk'; csimpl.
    + destruct (decide (k = k')) as [->|Hne].
      * rewrite lookup_insert_eq, bool_decide_eq_true_2; [done|]. left.
      * rewrite lookup_insert_ne, IH by done.
        assert (k ∈ k' :: keys ↔ k ∈ keys) as Hiff
          by (rewrite elem_of_cons; intuition congruence).
        by rewrite (bool_decide_ext _ _ Hiff).
    + rewrite IH. destruct (decide (k = k')) as [->|Hne].
      * rewrite Hk'. by repeat case_bool_decide.
      * assert (k ∈ k' :: keys ↔ k ∈ keys) as Hiff
          by (rewrite elem_of_cons; intuition congruence).
        by rewrite (bool_decide_ext _ _ Hiff).
Qed.

(** ** The data-source listing *)

Section listing_facts.
Import DataSourceListResource.

Lemma first_seen_Some i rows ds :
  first_seen i rows = Some ds → ds ∈ rows ∧ DataSource.id ds = i.
Proof.
  intros [Hin Hid]%find_some. split; [by apply list_elem_of_In|].
  by apply bool_decide_eq_true in Hid.
Qed.

Lemma first_seen_is_Some i rows :
  i ∈ DataSource.id <$> rows → is_Some (first_seen i rows).
Proof.
  intros (ds & -> & Hin)%list_elem_of_fmap.
  destruct (first_seen (DataSource.id ds) rows) as [r|] eqn:Hf; [by eexists|].
  apply list_elem_of_In in Hin.
  pose proof (find_none _ _ Hf ds Hin) as Hno. simpl in Hno.
  by rewrite bool_decide_eq_true_2 in Hno.
Qed.

(** What the loop has stored under key [i] once it has visited [rows],
    started from [response]: an entry already there stays, otherwise the
    first row of that id decides. *)
Lemma lookup_foldl_visit user rows (response : gmap Z entry) i :
  foldl (visit user) response rows !! i =
    match response !! i with
    | Some e => Some e
    | None => entry_of user <$> first_seen i rows
    end.
Proof.
  revert response. induction rows as [|ds rows IH]; intros response; simpl.
  - by destruct (response !! i).
  - rewrite IH. unfold visit. case_bool_decide as Hseen.
    + destruct (response !! i) eqn:Hi; [done|].
      rewrite bool_decide_eq_false_2; [done|].
      intros Heq. rewrite Heq, Hi in Hseen. by destruct Hseen.
    + apply eq_None_not_Some in Hseen.
      destruct (decide (DataSource.id ds = i)) as [Heq|Hne].
      * rewrite Heq in *. rewrite lookup_insert_eq, Hseen.
        by rewrite bool_decide_eq_true_2.
      * rewrite lookup_insert_ne by done.
        by rewrite bool_decide_eq_false_2.
Qed.

Lemma lookup_response user rows i :
  foldl (visit user) ∅ rows !! i = entry_of user <$> first_seen i rows.
Proof. by rewrite lookup_foldl_visit, lookup_empty. Qed.

Lemma response_key user rows i e :
  foldl (visit user) ∅ rows !! i = Some e → entry_id e = i.
Proof.
  rewrite lookup_response. intros (ds & Hds & ->)%fmap_Some.
  by apply first_seen_Some in Hds as [_ Hid].
Qed.

(** The entries of the listing are those of the first rows of each id. *)
Lemma elem_of_listing user rows e :
  e ∈ listing user rows ↔
    ∃ ds, first_seen (entry_id e) rows = Some ds ∧ e = entry_of user ds.
Proof.
  unfold listing. rewrite elem_of_sorted, elem_of_values. split.
  - intros [k Hk]. pose proof (response_key _ _ _ _ Hk) as ->.
    rewrite lookup_response in Hk.
    apply fmap_Some in Hk as (ds & Hds & ->). eauto.
  - intros (ds & Hds & He). exists (entry_id e).
    by rewrite lookup_response, Hds, He.
Qed.

Lemma listing_ids_NoDup user rows : NoDup (entry_id <$> listing user rows).
Proof.
  unfold listing. rewrite sorted_Permutation. unfold values.
  rewrite <-list_fmap_compose.
  assert ((entry_id ∘ snd) <$> map_to_list (foldl (visit user) ∅ rows)
          = (map_to_list (foldl (visit user) ∅ rows)).*1) as ->.
  { apply Forall_fmap_ext, Forall_forall. intros [k e] Hin. simpl.
    apply elem_of_map_to_list in Hin. by eapply response_key. }
  apply NoDup_fst_map_to_list.
Qed.

(** The flag of an entry, read off the requester's groups and the
    permission mapping. *)
Lemma view_only_true_iff user ds :
  view_only (entry_of user ds) = true ↔
    ∀ g l, g ∈ User.groups user → DataSource.groups ds !! g = Some l → l = Read.
Proof.
  simpl. unfold all. rewrite forallb_forall. split.
  - intros Hall g l Hg Hl.
    assert (truthy l = true) as Ht; [|by destruct l].
    apply Hall, list_elem_of_In, elem_of_values. exists g.
    by rewrite lookup_project, bool_decide_eq_true_2.
  - intros Hall l [g Hg]%list_elem_of_In%elem_of_values.
    rewrite lookup_project in Hg. case_bool_decide; [|done].
    by rewrite (Hall g l).
Qed.
End listing_facts.

(** A requester allowed to list is answered the listing of what the storage
    query returns. *)
Lemma list_get_is_listing DataSource_all self w :
  User.has_permission (current_user self) "list_data_sources" = true →
  ∃ data_sources,
    DataSourceListResource.get DataSource_all self w
    = Ok (DataSourceListResource.listing (current_user self) data_sources).
Proof.
  intros Hp. unfold DataSourceListResource.get. rewrite Hp. by eexists.
Qed.

(** C1: in the data-source listing, for a requester who shares at least one
    group with the data source's group-permission mapping, the entry's
    view_only flag is true if and only if every permission level at a shared
    group is read-only, and it is false whenever a shared group grants
    write. *)
Theorem listing_view_only_shared (user : User.t) (rows : list DataSource.t)
    (e : DataSourceListResource.entry) (ds : DataSource.t) :
  e ∈ DataSourceListResource.listing user rows →
  first_seen (DataSourceListResource.entry_id e) rows = Some ds →
  (∃ g, g ∈ User.groups user ∧ is_Some (DataSource.groups ds !! g)) →
  (DataSourceListResource.view_only e = true ↔
     ∀ g l, g ∈ User.groups user → DataSource.groups ds !! g = Some l → l = Read)
  ∧ ((∃ g, g ∈ User.groups user ∧ DataSource.groups ds !! g = Some Write) →
     DataSourceListResource.view_only e = false).
Proof.
  intros (ds' & Hds' & ->)%elem_of_listing Hds _.
  assert (ds' = ds) as -> by congruence.
  split; [apply view_only_true_iff|].
  intros (g & Hg & Hw). apply not_true_is_false. intros Ht.
  by specialize (proj1 (view_only_true_iff user ds) Ht g Write Hg Hw).
Qed.

Lemma listing_view_only_shared_witness :
  let ds := sample_source 5 {[ 1 := Read; 2 := Write; 3 := Read ]} in
  let e := DataSourceListResource.entry_of sample_member ds in
  (DataSourceListResource.view_only e = true ↔
     ∀ g l, g ∈ User.groups sample_member →
            DataSource.groups ds !! g = Some l → l = Read)
  ∧ ((∃ g, g ∈ User.groups sample_member ∧ DataSource.groups ds !! g = Some Write) →
     DataSourceListResource.view_only e = false).
Proof.
  intros ds e.
  apply (listing_view_only_shared sample_member [ds; ds] e ds).
  - apply elem_of_listing. exists ds. split; reflexivity.
  - reflexivity.
  - exists 1. split; [left | by eexists].
Defined.

(** C10: for a requester who shares no group with the data source's
    group-permission mapping (an administrator listing every data source of
    the organization), the entry's view_only flag is true: the conjunction
    over no level at all. *)
Theorem listing_view_only_no_shared_group (user : User.t)
    (rows : list DataSource.t) (e : DataSourceListResource.entry)
    (ds : DataSource.t) :
  e ∈ DataSourceListResource.listing user rows →
  first_seen (DataSourceListResource.entry_id e) rows = Some ds →
  (∀ g, g ∈ User.groups user → DataSource.groups ds !! g = None) →
  DataSourceListResource.view_only e = true.
Proof.
  intros (ds' & Hds' & ->)%elem_of_listing Hds Hnone.
  assert (ds' = ds) as -> by congruence.
  apply view_only_true_iff. intros g l Hg Hl.
  rewrite (Hnone g Hg) in Hl. done.
Qed.

Lemma listing_view_only_no_shared_group_witness :
  DataSourceListResource.view_only
    (DataSourceListResource.entry_of sample_admin
       (sample_source 5 {[ 1 := Write; 2 := Read ]})) = true.
Proof.
  set (ds := sample_source 5 {[ 1 := Write; 2 := Read ]}).
  apply (listing_view_only_no_shared_group sample_admin [ds] _ ds).
  - apply elem_of_listing. exists ds. split; reflexivity.
  - reflexivity.
  - intros g Hg. apply list_elem_of_singleton in Hg as ->. reflexivity.
Defined.

(** C2: whatever sequence of data sources the storage returns, with the same
    id any number of times, the listing has exactly one entry per distinct
    id of the sequence, in ascending order of id. *)
Theorem listing_one_entry_per_id_ascending (user : User.t)
    (rows : list DataSource.t) :
  StronglySorted Z.lt
    (DataSourceListResource.entry_id <$> DataSourceListResource.listing user rows)
  ∧ NoDup
      (DataSourceListResource.entry_id <$> DataSourceListResource.listing user rows)
  ∧ ∀ i,
      i ∈ DataSourceListResource.entry_id <$> DataSourceListResource.listing user rows
      ↔ i ∈ DataSource.id <$> rows.
Proof.
  split; [|split].
  - apply StronglySorted_le_NoDup_lt; [|apply listing_ids_NoDup].
    eapply StronglySorted_fmap; [|apply sorted_StronglySorted; apply _].
    by intros x y.
  - apply listing_ids_NoDup.
  - intros i. rewrite list_elem_of_fmap. split.
    + intros (e & -> & (ds & Hds & _)%elem_of_listing).
      apply first_seen_Some in Hds as [Hin <-].
      by apply list_elem_of_fmap_2.
    + intros [ds Hds]%first_seen_is_Some.
      exists (DataSourceListResource.entry_of user ds). split.
      * by apply first_seen_Some in Hds as [_ Hid].
      * apply elem_of_listing. exists ds. split; [|done].
        by replace (DataSourceListResource.entry_id _) with i
          by (by apply first_seen_Some in Hds as [_ Hid]).
Qed.

Example listing_of_overlapping_groups :
  let ds5 := sample_source 5 {[ 1 := Read; 2 := Write ]} in
  let ds3 := sample_source 3 {[ 2 := Read ]} in
  (λ e, (DataSourceListResource.entry_id e, DataSourceListResource.view_only e))
    <$> DataSourceListResource.listing sample_member [ds5; ds3; ds5]
  = [(3, true); (5, false)].
Proof. vm_compute. reflexivity. Qed.

(** C9, as stated for every requester, fails: a requester who shares no
    group with a stored resource (an administrator listing every data
    source) is shown the flag true, the conjunction over no level, where
    the flag merged across all groups is false for want of a shared
    group. *)
Lemma first_seen_wins_counterexample :
  ¬ ∀ (w : World) (user : User.t) (rows : list DataSource.t)
      (e : DataSourceListResource.entry) (resource : DataSource.t),
      Forall (stored w) rows →
      e ∈ DataSourceListResource.listing user rows →
      db w !! DataSourceListResource.entry_id e = Some resource →
      DataSourceListResource.view_only e
      = merged_view_only (list_to_set (User.groups user))
          (DataSource.groups resource).
Proof.
  intros Hclaim.
  set (ds := sample_source 5 {[ 1 := Read; 2 := Write; 3 := Read ]}).
  assert (DataSourceListResource.entry_of sample_admin ds
          ∈ DataSourceListResource.listing sample_admin [ds]) as Hin.
  { apply elem_of_listing. exists ds. split; reflexivity. }
  specialize (Hclaim sample_world sample_admin [ds] _ ds
                ltac:(repeat constructor) Hin eq_refl).
  vm_compute in Hclaim. discriminate.
Qed.

(** C9 (amended): when the rows are stored entities, so that every
    occurrence of an id carries the resource's entire group-permission
    mapping, and the requester shares at least one group with the resource,
    the flag the listing keeps from the first occurrence is the flag merged
    across all groups the requester shares with the resource, and every
    later occurrence of that id would have given the same flag. *)
Theorem first_seen_wins_is_merged (w : World) (user : User.t)
    (rows : list DataSource.t) (e : DataSourceListResource.entry)
    (resource : DataSource.t) :
  Forall (stored w) rows →
  e ∈ DataSourceListResource.listing user rows →
  db w !! DataSourceListResource.entry_id e = Some resource →
  (∃ g, g ∈ User.groups user ∧ is_Some (DataSource.groups resource !! g)) →
  DataSourceListResource.view_only e
    = merged_view_only (list_to_set (User.groups user)) (DataSource.groups resource)
  ∧ ∀ ds, ds ∈ rows → DataSource.id ds = DataSourceListResource.entry_id e →
      DataSourceListResource.view_only (DataSourceListResource.entry_of user ds)
      = DataSourceListResource.view_only e.
Proof.
  intros Hrows (ds0 & Hds0 & ->)%elem_of_listing Hres (g0 & Hg0 & Hshared).
  rewrite Forall_forall in Hrows.
  apply first_seen_Some in Hds0 as [Hin0 Hid0].
  assert (∀ ds, ds ∈ rows →
            DataSource.id ds = DataSource.id ds0 → ds = resource) as Hsame.
  { intros ds Hin Hid. specialize (Hrows ds Hin). unfold stored in Hrows.
    rewrite Hid in Hrows. simpl in Hres. congruence. }
  pose proof (Hsame ds0 Hin0 eq_refl) as ->. split.
  - apply eq_true_iff_eq. rewrite view_only_true_iff.
    unfold merged_view_only. rewrite bool_decide_eq_true. unfold set_Forall.
    split.
    + intros Hall. split.
      * intros Hempty.
        assert (g0 ∈ (list_to_set (User.groups user) : gset Z)
                     ∩ dom (DataSource.groups resource)) as Hg.
        { apply elem_of_intersection. split.
          - by apply elem_of_list_to_set.
          - by apply elem_of_dom. }
        rewrite Hempty in Hg. by apply not_elem_of_empty in Hg.
      * intros g [Hg [l Hl]%elem_of_dom]%elem_of_intersection.
        rewrite elem_of_list_to_set in Hg. by rewrite Hl, (Hall g l).
    + intros [_ Hall] g l Hg Hl.
      assert (DataSource.groups resource !! g = Some Read) as Hr.
      { apply Hall, elem_of_intersection. split.
        - by apply elem_of_list_to_set.
        - apply elem_of_dom. by eexists. }
      congruence.
  - intros ds Hin Hid. by rewrite (Hsame ds Hin Hid).
Qed.

Lemma first_seen_wins_is_merged_witness :
  let ds5 := sample_source 5 {[ 1 := Read; 2 := Write; 3 := Read ]} in
  let ds3 := sample_source 3 {[ 2 := Read ]} in
  let e := DataSourceListResource.entry_of sample_member ds5 in
  DataSourceListResource.view_only e
    = merged_view_only (list_to_set (User.groups sample_member)) (DataSource.groups ds5)
  ∧ ∀ ds, ds ∈ [ds5; ds3; ds5] →
      DataSource.id ds = DataSourceListResource.entry_id e →
      DataSourceListResource.view_only (DataSourceListResource.entry_of sample_member ds)
      = DataSourceListResource.view_only e.
Proof.
  intros ds5 ds3 e.
  apply (first_seen_wins_is_merged sample_world sample_member [ds5; ds3; ds5] e ds5).
  - repeat constructor.
  - apply elem_of_listing. exists ds5. split; reflexivity.
  - reflexivity.
  - exists 1. split; [left | by eexists].
Defined.

(** ** The connector-type listing *)

Example type_list_of_sample_registry :
  DataSourceTypeListResource.get sample_registry sample_admin_request
  = Ok [("rds_mysql", "MySQL"); ("mysql", "MySQL"); ("sqlite", "Sqlite")].
Proof. vm_compute. reflexivity. Qed.

(** C7, as stated, fails: two connector types of equal display name come out
    in the order the registry enumerates them, here the greater identifier
    first. *)
Lemma type_list_tie_break_counterexample :
  ¬ ∀ (query_runners : registry) (self : BaseResource) out,
      is_admin self = true →
      DataSourceTypeListResource.get query_runners self = Ok out →
      StronglySorted name_then_type out.
Proof.
  intros Hclaim.
  specialize (Hclaim sample_registry sample_admin_request _ eq_refl
                type_list_of_sample_registry).
  apply StronglySorted_inv in Hclaim as [_ Hhd].
  apply Forall_cons in Hhd as [[[Hne _]|[_ Hle]] _].
  - by apply Hne.
  - vm_compute in Hle. done.
Qed.

(** C7 (amended): for an administrator the connector-type listing is the
    registered connector types sorted ascending by display name; connector
    types of equal display name keep the order in which the registry
    enumerates them. *)
Theorem type_list_sorted_by_name_stable (query_runners : registry)
    (self : BaseResource) :
  is_admin self = true →
  ∃ qs,
    DataSourceTypeListResource.get query_runners self
      = Ok (QueryRunner.to_dict <$> qs)
    ∧ qs ≡ₚ query_runners.*2
    ∧ StronglySorted
        (λ a b, (QueryRunner.name a ≤ QueryRunner.name b)%string) qs
    ∧ ∀ n, filter (λ q, QueryRunner.name q = n) qs
           = filter (λ q, QueryRunner.name q = n) query_runners.*2.
Proof.
  intros Hadmin. unfold DataSourceTypeListResource.get. rewrite Hadmin.
  eexists. split; [reflexivity|]. split; [|split].
  - apply sorted_Permutation.
  - apply sorted_StronglySorted; apply _.
  - intros n. apply sorted_stable; apply _.
Qed.

Lemma type_list_sorted_by_name_stable_witness :
  ∃ qs,
    DataSourceTypeListResource.get sample_registry sample_admin_request
      = Ok (QueryRunner.to_dict <$> qs)
    ∧ qs ≡ₚ sample_registry.*2
    ∧ StronglySorted
        (λ a b, (QueryRunner.name a ≤ QueryRunner.name b)%string) qs
    ∧ ∀ n, filter (λ q, QueryRunner.name q = n) qs
           = filter (λ q, QueryRunner.name q = n) sample_registry.*2.
Proof.
  apply (type_list_sorted_by_name_stable sample_registry sample_admin_request).
  reflexivity.
Defined.

(** ** Update and creation *)

(** The update handler writes only on its successful path. *)
Lemma update_error_keeps_world (query_runners : registry) (self : BaseResource)
    (w : World) (i : Z) (req : gmap string json) :
  is_error (DataSourceResource.post query_runners self w i req).2 = true →
  (DataSourceResource.post query_runners self w i req).1 = w.
Proof.
  unfold DataSourceResource.post.
  repeat (case_match; simpl; try done).
Qed.

(** C3: when the connector type of an update is unknown to the registry, or
    the new options do not validate against the new type's schema, the
    update fails with an error and nothing is written: the stored data
    source, its Configuration Container included (schema and values), is
    what it was. *)
Theorem failed_update_leaves_container (query_runners : registry)
    (self : BaseResource) (w : World) (i : Z) (req : gmap string json)
    (ds : DataSource.t) :
  get_by_id_and_org w i (current_org self) = Some ds →
  update_rejected query_runners ds req →
  is_error (DataSourceResource.post query_runners self w i req).2 = true
  ∧ (DataSourceResource.post query_runners self w i req).1 = w
  ∧ DataSource.options
      <$> get_by_id_and_org (DataSourceResource.post query_runners self w i req).1
            i (current_org self)
    = Some (DataSource.options ds).
Proof.
  intros Hds (type & Htype & Hrej).
  assert (is_error (DataSourceResource.post query_runners self w i req).2 = true)
    as Herr.
  { unfold DataSourceResource.post. rewrite Hds, Htype.
    destruct (is_admin self); [|done].
    destruct (get_configuration_schema_for_type query_runners type); [|done].
    destruct Hrej as (new_options & e & -> & ->). done. }
  split; [done|].
  rewrite (update_error_keeps_world _ _ _ _ _ Herr).
  split; [done|]. by rewrite Hds.
Qed.

Lemma failed_update_leaves_container_witness :
  is_error
    (DataSourceResource.post sample_registry sample_admin_request sample_world 5
       sample_update).2 = true
  ∧ (DataSourceResource.post sample_registry sample_admin_request sample_world 5
       sample_update).1 = sample_world
  ∧ DataSource.options
      <$> get_by_id_and_org
            (DataSourceResource.post sample_registry sample_admin_request
               sample_world 5 sample_update).1 5 1
    = Some sample_container.
Proof.
  apply (failed_update_leaves_container sample_registry sample_admin_request
           sample_world 5 sample_update
           (sample_source 5 {[ 1 := Read; 2 := Write; 3 := Read ]})).
  - reflexivity.
  - exists (JAtom (AStr "mysql")). split; [reflexivity|].
    exists (JObject {[ "port" := AStr "bad" ]}),
      {| field := "port"; reason := WrongType |}.
    split; [reflexivity|]. vm_compute. reflexivity.
Defined.

(** An update that validates is written, with the new schema and the merged
    values. *)
Example accepted_update_is_written :
  let req : gmap string json :=
    {[ "type" := JAtom (AStr "mysql"); "name" := JAtom (AStr "warehouse");
       "options" := JObject {[ "port" := ANum 5432 ]} ]} in
  (ConfigurationContainer.config ∘ DataSource.options)
    <$> db (DataSourceResource.post sample_registry sample_admin_request
              sample_world 5 req).1 !! 5
  = Some (JObject {[ "host" := AStr "db"; "password" := AStr "x";
                     "port" := ANum 5432 ]}).
Proof. vm_compute. reflexivity. Qed.

Lemma create_refused (query_runners : registry) (self : BaseResource)
    (w : World) (req : gmap string json) :
  create_accepted query_runners req = false →
  DataSourceListResource.post query_runners self w req = (w, Abort 400)
  ∨ DataSourceListResource.post query_runners self w req = (w, Abort 403).
Proof.
  unfold create_accepted, DataSourceListResource.post. intros Hno.
  destruct (is_admin self); [left|by right].
  cbn [existsb DataSourceListResource.required_fields].
  destruct (req !! "options") as [options|]; [|done].
  destruct (req !! "name") as [name|]; [|done].
  destruct (req !! "type") as [type|]; [|done].
  rewrite !bool_decide_eq_false_2 by done. cbn [orb].
  rewrite bool_decide_eq_true_2 in Hno by done. cbn [andb] in Hno.
  destruct (get_configuration_schema_for_type query_runners type); [|done].
  by rewrite Hno.
Qed.

(** For an administrator the three conditions are also enough: the data
    source is stored under the next free id. *)
Lemma create_stores (query_runners : registry) (self : BaseResource)
    (w : World) (req : gmap string json) :
  is_admin self = true →
  create_accepted query_runners req = true →
  ∃ ds,
    (DataSourceListResource.post query_runners self w req).2
      = Ok (DataSource.to_dict true ds)
    ∧ db (DataSourceListResource.post query_runners self w req).1
      = <[next_id w := ds]> (db w)
    ∧ Some (DataSource.name ds) = req !! "name"
    ∧ Some (DataSource.type ds) = req !! "type"
    ∧ Some (ConfigurationContainer.config (DataSource.options ds))
      = req !! "options".
Proof.
  unfold create_accepted, DataSourceListResource.post. intros -> Hyes.
  cbn [existsb DataSourceListResource.required_fields].
  apply andb_true_iff in Hyes as [[name Hname]%bool_decide_eq_true Hyes].
  destruct (req !! "type") as [type|]; [|done].
  destruct (req !! "options") as [options|]; [|done].
  rewrite Hname, !bool_decide_eq_false_2 by done. cbn [orb].
  destruct (get_configuration_schema_for_type query_runners type); [|done].
  rewrite Hyes. simpl. eexists. repeat split; reflexivity.
Qed.

(** C4: a create request stores a data source only when name, type and
    options are all present, the registry knows the connector type and the
    options validate against its schema; when one of these fails, the
    operation ends in an error and the persistent state is untouched. *)
Theorem create_only_when_accepted (query_runners : registry)
    (self : BaseResource) (w : World) (req : gmap string json) :
  ((DataSourceListResource.post query_runners self w req).1 ≠ w →
     create_accepted query_runners req = true)
  ∧ (create_accepted query_runners req = false →
       (DataSourceListResource.post query_runners self w req).1 = w
       ∧ is_error (DataSourceListResource.post query_runners self w req).2 = true).
Proof.
  assert (create_accepted query_runners req = false →
          (DataSourceListResource.post query_runners self w req).1 = w
          ∧ is_error (DataSourceListResource.post query_runners self w req).2
            = true) as Hno.
  { intros Hno. by destruct (create_refused _ self w _ Hno) as [-> | ->]. }
  split; [|done].
  intros Hchanged. destruct (create_accepted query_runners req) eqn:Hacc; [done|].
  by destruct Hchanged, Hno.
Qed.

Lemma create_only_when_accepted_witness :
  (DataSourceListResource.post sample_registry sample_admin_request sample_world
     sample_create).1 = sample_world
  ∧ is_error
      (DataSourceListResource.post sample_registry sample_admin_request
         sample_world sample_create).2 = true.
Proof.
  apply (proj2 (create_only_when_accepted sample_registry sample_admin_request
                  sample_world sample_create)).
  vm_compute. reflexivity.
Defined.

Example create_of_valid_request :
  let req : gmap string json := <[ "type" := JAtom (AStr "mysql") ]> sample_create in
  create_accepted sample_registry req = true
  ∧ DataSource.id
      <$> db (DataSourceListResource.post sample_registry sample_admin_request
                sample_world req).1 !! 6
    = Some 6
  ∧ events (DataSourceListResource.post sample_registry sample_admin_request
              sample_world req).1
    = [ {| action := "create"; object_id := 6; object_type := "datasource" |} ].
Proof. vm_compute. repeat split; reflexivity. Qed.

Example create_with_missing_field :
  DataSourceListResource.post sample_registry sample_admin_request sample_world
    (base.delete "name" (<[ "type" := JAtom (AStr "mysql") ]> sample_create))
  = (sample_world, Abort 400).
Proof. vm_compute. reflexivity. Qed.

(** ** Pause and resume *)

Lemma well_keyed_save ds w : well_keyed w → well_keyed (save ds w).
Proof.
  intros Hw k ds'. simpl. rewrite lookup_insert. case_decide; [|by apply Hw].
  congruence.
Qed.

Lemma well_keyed_record_event ev w : well_keyed w → well_keyed (record_event ev w).
Proof. done. Qed.

Lemma get_object_or_404_Some w i org ds :
  get_object_or_404 w i org = Some ds ↔ db w !! i = Some ds ∧ DataSource.org ds = org.
Proof.
  unfold get_object_or_404, get_by_id_and_org.
  destruct (db w !! i) as [ds'|].
  - case_bool_decide as Horg.
    + split; [by intros [= ->] | by intros [[= ->] _]].
    + split; [done | by intros [[= ->] ?]].
  - split; [done | by intros [? _]].
Qed.

Lemma get_after_save w i org ds ds' ev :
  well_keyed w →
  get_object_or_404 w i org = Some ds →
  DataSource.id ds' = DataSource.id ds →
  DataSource.org ds' = DataSource.org ds →
  get_object_or_404 (record_event ev (save ds' w)) i org = Some ds'.
Proof.
  intros Hw [Hdb Horg]%get_object_or_404_Some Hid Horg'.
  apply get_object_or_404_Some. simpl. split; [|congruence].
  rewrite Hid, (Hw _ _ Hdb). apply lookup_insert_eq.
Qed.

Lemma pause_post_found self w i data args ds :
  is_admin self = true →
  get_object_or_404 w i (current_org self) = Some ds →
  DataSourcePauseResource.post self w i data args
  = (record_event {| action := "pause"; object_id := DataSource.id ds;
                     object_type := "datasource" |}
       (save (DataSource.pause (DataSourcePauseResource.request_reason data args) ds) w),
     Ok (DataSource.to_dict false
           (DataSource.pause (DataSourcePauseResource.request_reason data args) ds))).
Proof. intros Hadmin Hds. unfold DataSourcePauseResource.post. by rewrite Hadmin, Hds. Qed.

Lemma resume_delete_found self w i ds :
  is_admin self = true →
  get_object_or_404 w i (current_org self) = Some ds →
  DataSourcePauseResource.delete self w i
  = (record_event {| action := "resume"; object_id := DataSource.id ds;
                     object_type := "datasource" |}
       (save (DataSource.resume ds) w),
     Ok (DataSource.to_dict false (DataSource.resume ds))).
Proof. intros Hadmin Hds. unfold DataSourcePauseResource.delete. by rewrite Hadmin, Hds. Qed.

Lemma resume_active ds :
  DataSource.paused ds = false → DataSource.pause_reason ds = None →
  DataSource.resume ds = ds.
Proof. destruct ds; simpl; intros -> ->; done. Qed.

(** The handlers that write keep every stored data source under its id. *)
Lemma pause_keeps_well_keyed self w i data args :
  well_keyed w → well_keyed (DataSourcePauseResource.post self w i data args).1.
Proof.
  intros Hw. unfold DataSourcePauseResource.post.
  repeat (case_match; simpl; try done).
  by apply well_keyed_record_event, well_keyed_save.
Qed.

Lemma resume_keeps_well_keyed self w i :
  well_keyed w → well_keyed (DataSourcePauseResource.delete self w i).1.
Proof.
  intros Hw. unfold DataSourcePauseResource.delete.
  repeat (case_match; simpl; try done).
  by apply well_keyed_record_event, well_keyed_save.
Qed.

Lemma update_keeps_well_keyed query_runners self w i req :
  well_keyed w → well_keyed (DataSourceResource.post query_runners self w i req).1.
Proof.
  intros Hw. unfold DataSourceResource.post.
  repeat (case_match; simpl; try done).
  by apply well_keyed_save.
Qed.

Lemma create_keeps_well_keyed query_runners self w req :
  well_keyed w → well_keyed (DataSourceListResource.post query_runners self w req).1.
Proof.
  intros Hw. unfold DataSourceListResource.post.
  repeat (case_match; simpl; try done).
  intros k ds. simpl. rewrite lookup_insert. case_decide; [|by apply Hw].
  by intros [= <-].
Qed.

(** The handler reads off a request the reason the request carries. *)
Lemma request_reason_carries data args reason :
  carries_reason data args reason →
  DataSourcePauseResource.request_reason data args = reason.
Proof.
  unfold DataSourcePauseResource.request_reason.
  intros [body args' v Hv Hnull | args' s Hs | args' Hnone].
  - rewrite bool_decide_eq_false_2.
    + unfold json_get. rewrite Hv. by destruct v as [[]|].
    + intros ->. by rewrite lookup_empty in Hv.
  - by rewrite Hs.
  - by rewrite Hnone.
Qed.

Lemma sample_world_well_keyed : well_keyed sample_world.
Proof.
  intros k ds. unfold sample_world. simpl.
  intros [[<- <-]|[_ [<- <-]%lookup_singleton_Some]]%lookup_insert_Some; done.
Qed.

(** C5: for every data source and every pair of reasons, a pause request
    that carries the one leaves the data source Paused with that reason, and
    a second pause request that carries the other leaves it Paused with the
    other reason, the same entity as one pause with the other reason gives
    (the reason is overwritten, nothing accumulates, no error); resuming a
    data source that is Active with no reason leaves the stored entity as it
    was, Active with no reason. *)
Theorem pause_overwrites_and_resume_is_noop (self : BaseResource) (w : World)
    (i : Z) (ds : DataSource.t)
    (data other_data : option (gmap string json))
    (args other_args : gmap string string) (reason other_reason : option json) :
  well_keyed w →
  is_admin self = true →
  get_object_or_404 w i (current_org self) = Some ds →
  carries_reason data args reason →
  carries_reason other_data other_args other_reason →
  (let first := DataSourcePauseResource.post self w i data args in
   let out := DataSourcePauseResource.post self first.1 i other_data other_args in
   (∃ ds1 d1,
      get_object_or_404 first.1 i (current_org self) = Some ds1
      ∧ DataSource.paused ds1 = true
      ∧ DataSource.pause_reason ds1 = reason
      ∧ first.2 = Ok d1
      ∧ Dict.paused d1 = true
      ∧ Dict.pause_reason d1 = reason)
   ∧ ∃ ds2 d2,
       get_object_or_404 out.1 i (current_org self) = Some ds2
       ∧ DataSource.paused ds2 = true
       ∧ DataSource.pause_reason ds2 = other_reason
       ∧ ds2 = DataSource.pause other_reason ds
       ∧ out.2 = Ok d2
       ∧ d2 = DataSource.to_dict false ds2
       ∧ Dict.paused d2 = true
       ∧ Dict.pause_reason d2 = other_reason)
  ∧ (DataSource.paused ds = false → DataSource.pause_reason ds = None →
     let out := DataSourcePauseResource.delete self w i in
     db out.1 = db w
     ∧ get_object_or_404 out.1 i (current_org self) = Some ds
     ∧ out.2 = Ok (DataSource.to_dict false ds)
     ∧ Dict.paused (DataSource.to_dict false ds) = false
     ∧ Dict.pause_reason (DataSource.to_dict false ds) = None).
Proof.
  intros Hw Hadmin Hds Hr1%request_reason_carries Hr2%request_reason_carries.
  split.
  - intros first out.
    assert (get_object_or_404 first.1 i (current_org self)
            = Some (DataSource.pause reason ds)) as Hds1.
    { unfold first. rewrite (pause_post_found _ _ _ _ _ _ Hadmin Hds), Hr1.
      by eapply get_after_save. }
    assert (well_keyed first.1) as Hw1.
    { unfold first. rewrite (pause_post_found _ _ _ _ _ _ Hadmin Hds).
      by apply well_keyed_record_event, well_keyed_save. }
    split.
    + exists (DataSource.pause reason ds),
        (DataSource.to_dict false (DataSource.pause reason ds)).
      split; [done|]. unfold first.
      rewrite (pause_post_found _ _ _ _ _ _ Hadmin Hds), Hr1. by repeat split.
    + exists (DataSource.pause other_reason ds),
        (DataSource.to_dict false (DataSource.pause other_reason ds)).
      unfold out. rewrite (pause_post_found _ _ _ _ _ _ Hadmin Hds1), Hr2.
      cbn [fst snd]. repeat split.
      eapply (get_after_save first.1); [done|exact Hds1|done..].
  - intros Hactive Hreason out. unfold out.
    rewrite (resume_delete_found _ _ _ _ Hadmin Hds).
    rewrite (resume_active _ Hactive Hreason). cbn [fst snd].
    split; [|split; [by eapply get_after_save | by repeat split]].
    apply get_object_or_404_Some in Hds as [Hdb _].
    simpl. rewrite (Hw _ _ Hdb). by apply insert_id.
Qed.

Lemma pause_overwrites_and_resume_is_noop_witness :
  let ds := sample_source 5 {[ 1 := Read; 2 := Write; 3 := Read ]} in
  let maintenance := Some (JAtom (AStr "maintenance")) in
  let migration := Some (JAtom (AStr "migration")) in
  let first :=
    DataSourcePauseResource.post sample_admin_request sample_world 5
      (Some {[ "reason" := JAtom (AStr "maintenance") ]}) ∅ in
  let out :=
    DataSourcePauseResource.post sample_admin_request first.1 5
      None {[ "reason" := "migration" ]} in
  ((∃ ds1 d1,
      get_object_or_404 first.1 5 (current_org sample_admin_request) = Some ds1
      ∧ DataSource.paused ds1 = true
      ∧ DataSource.pause_reason ds1 = maintenance
      ∧ first.2 = Ok d1
      ∧ Dict.paused d1 = true
      ∧ Dict.pause_reason d1 = maintenance)
   ∧ ∃ ds2 d2,
       get_object_or_404 out.1 5 (current_org sample_admin_request) = Some ds2
       ∧ DataSource.paused ds2 = true
       ∧ DataSource.pause_reason ds2 = migration
       ∧ ds2 = DataSource.pause migration ds
       ∧ out.2 = Ok d2
       ∧ d2 = DataSource.to_dict false ds2
       ∧ Dict.paused d2 = true
       ∧ Dict.pause_reason d2 = migration)
  ∧ (let out := DataSourcePauseResource.delete sample_admin_request sample_world 5 in
     db out.1 = db sample_world
     ∧ get_object_or_404 out.1 5 (current_org sample_admin_request) = Some ds
     ∧ out.2 = Ok (DataSource.to_dict false ds)
     ∧ Dict.paused (DataSource.to_dict false ds) = false
     ∧ Dict.pause_reason (DataSource.to_dict false ds) = None).
Proof.
  intros ds maintenance migration first out.
  destruct (pause_overwrites_and_resume_is_noop sample_admin_request sample_world
              5 ds (Some {[ "reason" := JAtom (AStr "maintenance") ]}) None
              ∅ {[ "reason" := "migration" ]} maintenance migration)
    as [Hpause Hresume].
  - exact sample_world_well_keyed.
  - reflexivity.
  - reflexivity.
  - by apply reason_in_body.
  - by apply reason_in_query.
  - split; [exact Hpause | exact (Hresume eq_refl eq_refl)].
Defined.

Example pause_twice_then_resume :
  let body (r : string) : option (gmap string json) :=
    Some {[ "reason" := JAtom (AStr r) ]} in
  let w1 := (DataSourcePauseResource.post sample_admin_request sample_world 5
               (body "maintenance") ∅).1 in
  let w2 := (DataSourcePauseResource.post sample_admin_request w1 5
               None {[ "reason" := "migration" ]}).1 in
  let w3 := (DataSourcePauseResource.delete sample_admin_request w2 5).1 in
  (λ ds, (DataSource.paused ds, DataSource.pause_reason ds)) <$> db w2 !! 5
    = Some (true, Some (JAtom (AStr "migration")))
  ∧ (λ ds, (DataSource.paused ds, DataSource.pause_reason ds)) <$> db w3 !! 5
    = Some (false, None)
  ∧ action <$> events w3 = ["pause"; "pause"; "resume"].
Proof. vm_compute. repeat split; reflexivity. Qed.

(** ** Masked and full serialization *)

Lemma masked_container_same_but_secrets c1 c2 vals1 vals2 :
  ConfigurationContainer.schema c1 = ConfigurationContainer.schema c2 →
  ConfigurationContainer.config c1 = JObject vals1 →
  ConfigurationContainer.config c2 = JObject vals2 →
  (∀ k, k ∉ secret_names (ConfigurationContainer.schema c1) →
        vals1 !! k = vals2 !! k) →
  ConfigurationContainer.to_dict false c1 = ConfigurationContainer.to_dict false c2.
Proof.
  intros Hs H1 H2 Hlow. unfold ConfigurationContainer.to_dict.
  rewrite H1, H2, <-Hs. f_equal.
  apply map_filter_strong_ext. intros k v. simpl. split.
  - intros [Hk Hv]. split; [done|]. by rewrite <-Hlow.
  - intros [Hk Hv]. split; [done|]. by rewrite Hlow.
Qed.

Lemma masked_entity_same_but_secrets ds1 ds2 :
  same_but_secrets ds1 ds2 →
  DataSource.to_dict false ds1 = DataSource.to_dict false ds2.
Proof.
  intros (Hid & _ & Hname & Htype & _ & Hp & Hr & Hs & v1 & v2 & H1 & H2 & Hlow).
  unfold DataSource.to_dict.
  rewrite Hid, Hname, Htype, Hp, Hr.
  by rewrite (masked_container_same_but_secrets _ _ _ _ Hs H1 H2 Hlow).
Qed.

Lemma masked_container_omits_secrets c vals k :
  ConfigurationContainer.to_dict false c = JObject vals →
  k ∈ secret_names (ConfigurationContainer.schema c) →
  vals !! k = None.
Proof.
  unfold ConfigurationContainer.to_dict.
  destruct (ConfigurationContainer.config c) as [a|o]; [done|].
  intros [= <-] Hk. apply map_lookup_filter_None. right. intros v _ Hno.
  by apply Hno.
Qed.

Lemma same_but_secrets_pause r ds1 ds2 :
  same_but_secrets ds1 ds2 →
  same_but_secrets (DataSource.pause r ds1) (DataSource.pause r ds2).
Proof.
  intros (? & ? & ? & ? & ? & ? & ? & ? & ?). unfold same_but_secrets. simpl.
  by repeat (split; [done|]).
Qed.

Lemma same_but_secrets_resume ds1 ds2 :
  same_but_secrets ds1 ds2 →
  same_but_secrets (DataSource.resume ds1) (DataSource.resume ds2).
Proof.
  intros (? & ? & ? & ? & ? & ? & ? & ? & ?). unfold same_but_secrets. simpl.
  by repeat (split; [done|]).
Qed.

Lemma masked_container_lookup c vals :
  ConfigurationContainer.config c = JObject vals →
  ∃ shown,
    ConfigurationContainer.to_dict false c = JObject shown
    ∧ ∀ k, shown !! k
           = if bool_decide (k ∈ secret_names (ConfigurationContainer.schema c))
             then None else vals !! k.
Proof.
  intros Hc. unfold ConfigurationContainer.to_dict. rewrite Hc.
  eexists. split; [done|]. intros k. rewrite map_lookup_filter.
  destruct (vals !! k) as [v|]; simpl.
  - case_bool_decide.
    + by rewrite option_guard_False by (intros Hno; by apply Hno).
    + by rewrite option_guard_True.
  - by case_bool_decide.
Qed.

(** C6: pause and resume succeed with the masked serialization of the
    entity they stored: its id, name and type, its new pause state, and of
    its options every field the schema does not flag secret with its value
    and no field the schema flags secret; so the two responses are the same
    for two stored data sources that differ only in secret values.  The
    admin-only get returns the full entity, its options unmasked. *)
Theorem pause_resume_masked_get_full (self : BaseResource) (w1 w2 : World)
    (i : Z) (ds1 ds2 : DataSource.t) (vals1 : gmap string atom)
    (data : option (gmap string json)) (args : gmap string string) :
  is_admin self = true →
  get_object_or_404 w1 i (current_org self) = Some ds1 →
  get_object_or_404 w2 i (current_org self) = Some ds2 →
  same_but_secrets ds1 ds2 →
  ConfigurationContainer.config (DataSource.options ds1) = JObject vals1 →
  (∃ d shown,
     (DataSourcePauseResource.post self w1 i data args).2 = Ok d
     ∧ Dict.id d = DataSource.id ds1
     ∧ Dict.name d = DataSource.name ds1
     ∧ Dict.type d = DataSource.type ds1
     ∧ Dict.paused d = true
     ∧ Dict.options d = JObject shown
     ∧ ∀ k, shown !! k
            = if bool_decide
                   (k ∈ secret_names
                          (ConfigurationContainer.schema (DataSource.options ds1)))
              then None else vals1 !! k)
  ∧ (∃ d shown,
       (DataSourcePauseResource.delete self w1 i).2 = Ok d
       ∧ Dict.id d = DataSource.id ds1
       ∧ Dict.name d = DataSource.name ds1
       ∧ Dict.type d = DataSource.type ds1
       ∧ Dict.paused d = false
       ∧ Dict.pause_reason d = None
       ∧ Dict.options d = JObject shown
       ∧ ∀ k, shown !! k
              = if bool_decide
                     (k ∈ secret_names
                            (ConfigurationContainer.schema (DataSource.options ds1)))
                then None else vals1 !! k)
  ∧ (DataSourcePauseResource.post self w1 i data args).2
    = (DataSourcePauseResource.post self w2 i data args).2
  ∧ (DataSourcePauseResource.delete self w1 i).2
    = (DataSourcePauseResource.delete self w2 i).2
  ∧ ∃ d, DataSourceResource.get self w1 i = Ok d
         ∧ Dict.id d = DataSource.id ds1
         ∧ Dict.options d = JObject vals1.
Proof.
  intros Hadmin Hds1 Hds2 Hsame Hvals.
  rewrite (pause_post_found _ _ _ _ _ _ Hadmin Hds1),
    (pause_post_found _ _ _ _ _ _ Hadmin Hds2),
    (resume_delete_found _ _ _ _ Hadmin Hds1),
    (resume_delete_found _ _ _ _ Hadmin Hds2). cbn [snd].
  destruct (masked_container_lookup _ _ Hvals) as (shown & Hshown & Hlookup).
  split; [|split; [|split; [|split]]].
  - eexists _, shown. by repeat split.
  - eexists _, shown. by repeat split.
  - f_equal. by apply masked_entity_same_but_secrets, same_but_secrets_pause.
  - f_equal. by apply masked_entity_same_but_secrets, same_but_secrets_resume.
  - unfold DataSourceResource.get. rewrite Hadmin.
    unfold get_object_or_404 in Hds1. rewrite Hds1. eexists. by repeat split.
Qed.

Lemma pause_resume_masked_get_full_witness :
  let ds := sample_source 5 {[ 1 := Read; 2 := Write; 3 := Read ]} in
  let vals : gmap string atom := {[ "host" := AStr "db"; "password" := AStr "x" ]} in
  let secrets := secret_names (ConfigurationContainer.schema sample_container) in
  (∃ d shown,
     (DataSourcePauseResource.post sample_admin_request sample_world 5 None ∅).2
       = Ok d
     ∧ Dict.id d = DataSource.id ds
     ∧ Dict.name d = DataSource.name ds
     ∧ Dict.type d = DataSource.type ds
     ∧ Dict.paused d = true
     ∧ Dict.options d = JObject shown
     ∧ ∀ k, shown !! k = if bool_decide (k ∈ secrets) then None else vals !! k)
  ∧ (∃ d shown,
       (DataSourcePauseResource.delete sample_admin_request sample_world 5).2
         = Ok d
       ∧ Dict.id d = DataSource.id ds
       ∧ Dict.name d = DataSource.name ds
       ∧ Dict.type d = DataSource.type ds
       ∧ Dict.paused d = false
       ∧ Dict.pause_reason d = None
       ∧ Dict.options d = JObject shown
       ∧ ∀ k, shown !! k = if bool_decide (k ∈ secrets) then None else vals !! k)
  ∧ (DataSourcePauseResource.post sample_admin_request sample_world 5 None ∅).2
    = (DataSourcePauseResource.post sample_admin_request
         sample_world_other_secret 5 None ∅).2
  ∧ (DataSourcePauseResource.delete sample_admin_request sample_world 5).2
    = (DataSourcePauseResource.delete sample_admin_request
         sample_world_other_secret 5).2
  ∧ ∃ d, DataSourceResource.get sample_admin_request sample_world 5 = Ok d
         ∧ Dict.id d = DataSource.id ds
         ∧ Dict.options d = JObject vals.
Proof.
  intros ds vals secrets.
  eapply (pause_resume_masked_get_full sample_admin_request sample_world
            sample_world_other_secret 5 ds).
  - reflexivity.
  - reflexivity.
  - reflexivity.
  - repeat (split; [reflexivity|]).
    eexists _, _. split; [reflexivity|]. split; [reflexivity|].
    intros k Hk. destruct (decide (k = "password")) as [->|Hne].
    + destruct Hk. vm_compute. left.
    + rewrite !lookup_insert. case_decide; [reflexivity|].
      rewrite !lookup_singleton_ne by done. reflexivity.
  - reflexivity.
Defined.

(** ** Live schema *)

(** C8: a requester who shares a group with the data source, at whatever
    level and without being an administrator, passes the access check of
    the live-schema operation and receives what the connector answers. *)
Theorem schema_needs_read_access_only {S : Type}
    (get_schema : DataSource.t → response S) (self : BaseResource) (w : World)
    (i : Z) (ds : DataSource.t) :
  get_object_or_404 w i (current_org self) = Some ds →
  (∃ g, g ∈ User.groups (current_user self)
        ∧ is_Some (DataSource.groups ds !! g)) →
  DataSourceSchemaResource.get get_schema self w i = get_schema ds.
Proof.
  intros Hds (g & Hg & [l Hl]).
  unfold DataSourceSchemaResource.get. rewrite Hds.
  unfold permissions.has_access.
  destruct (User.has_permission (current_user self) "admin"); [done|].
  rewrite bool_decide_eq_false_2; [done|].
  intros Hempty.
  assert (project (DataSource.groups ds) (User.groups (current_user self)) !! g
          = Some l) as Hin.
  { by rewrite lookup_project, bool_decide_eq_true_2. }
  by rewrite Hempty, lookup_empty in Hin.
Qed.

Lemma schema_needs_read_access_only_witness :
  is_admin sample_member_request = false
  ∧ DataSourceSchemaResource.get
      (λ _, Ok ["orders"; "customers"]) sample_member_request sample_world 3
    = Ok ["orders"; "customers"].
Proof.
  split; [reflexivity|].
  apply (schema_needs_read_access_only (λ _, Ok ["orders"; "customers"])
           sample_member_request sample_world 3
           (sample_source 3 {[ 2 := Read ]})).
  - reflexivity.
  - exists 2. split; [right; left | by eexists].
Defined.

Example schema_refused_without_shared_group :
  DataSourceSchemaResource.get (λ _, Ok ["orders"])
    {| current_user :=
         {| User.id := 8; User.groups := [4]; User.permissions := [] |};
       current_org := 1; default_group := 1 |}
    sample_world 3
  = Abort 403.
Proof. vm_compute. reflexivity. Qed.

(** * Further properties of the handlers *)

(** ** The listing as a function of the rows *)

Lemma listing_ids user rows i :
  i ∈ DataSourceListResource.entry_id <$> DataSourceListResource.listing user rows
  ↔ i ∈ DataSource.id <$> rows.
Proof.
  rewrite list_elem_of_fmap. split.
  - intros (e & -> & (ds & Hds & _)%elem_of_listing).
    apply first_seen_Some in Hds as [Hin <-]. by apply list_elem_of_fmap_2.
  - intros [ds Hds]%first_seen_is_Some.
    pose proof (first_seen_Some _ _ _ Hds) as [_ Hid].
    exists (DataSourceListResource.entry_of user ds). split; [done|].
    apply elem_of_listing. exists ds. split; [|done].
    by replace (DataSourceListResource.entry_id _) with i.
Qed.

(** A row whose id the loop has seen leaves the response as it is. *)
Lemma foldl_visit_seen user (response : gmap Z DataSourceListResource.entry) rows :
  (∀ ds, ds ∈ rows → is_Some (response !! DataSource.id ds)) →
  foldl (DataSourceListResource.visit user) response rows = response.
Proof.
  induction rows as [|ds rows IH]; intros Hseen; simpl; [done|].
  unfold DataSourceListResource.visit at 2.
  rewrite bool_decide_eq_true_2 by (apply Hseen; left).
  apply IH. intros ds' Hin. apply Hseen. by right.
Qed.

Lemma first_seen_same_row rows i ds :
  same_id_same_row rows → ds ∈ rows → DataSource.id ds = i →
  first_seen i rows = Some ds.
Proof.
  intros Hsame Hin Hid.
  destruct (first_seen_is_Some i rows) as [ds' Hds'].
  { rewrite <-Hid. by apply list_elem_of_fmap_2. }
  pose proof (first_seen_Some _ _ _ Hds') as [Hin' Hid'].
  rewrite Hds'. f_equal. apply Hsame; [done..|congruence].
Qed.

Lemma first_seen_Permutation rows rows' i :
  same_id_same_row rows → rows ≡ₚ rows' →
  first_seen i rows' = first_seen i rows.
Proof.
  intros Hsame Hperm.
  destruct (first_seen i rows') as [ds'|] eqn:Hds'.
  - apply first_seen_Some in Hds' as [Hin' Hid']. symmetry.
    apply first_seen_same_row; [done| |done]. by rewrite Hperm.
  - destruct (first_seen i rows) as [ds|] eqn:Hds; [|done].
    apply first_seen_Some in Hds as [Hin Hid].
    destruct (first_seen_is_Some i rows') as [ds' Hsome].
    { rewrite <-Hid, <-Hperm. by apply list_elem_of_fmap_2. }
    congruence.
Qed.

(** X1: the order in which the storage returns the rows does not matter:
    when rows of equal id are the same row, two sequences with the same rows
    in any order give the same listing. *)
Theorem listing_Permutation (user : User.t) (rows rows' : list DataSource.t) :
  same_id_same_row rows →
  rows ≡ₚ rows' →
  DataSourceListResource.listing user rows'
  = DataSourceListResource.listing user rows.
Proof.
  intros Hsame Hperm. unfold DataSourceListResource.listing. do 2 f_equal.
  apply map_eq. intros i.
  by rewrite !lookup_response, (first_seen_Permutation rows rows' i).
Qed.

Lemma listing_Permutation_witness :
  let ds5 := sample_source 5 {[ 1 := Read; 2 := Write ]} in
  let ds3 := sample_source 3 {[ 2 := Read ]} in
  DataSourceListResource.listing sample_member [ds3; ds5; ds5]
  = DataSourceListResource.listing sample_member [ds5; ds3; ds5].
Proof.
  intros ds5 ds3.
  apply (listing_Permutation sample_member [ds5; ds3; ds5] [ds3; ds5; ds5]).
  - intros a b Ha Hb Hid.
    repeat (apply elem_of_cons in Ha as [->|Ha]);
      repeat (apply elem_of_cons in Hb as [->|Hb]);
      try reflexivity; try (by apply elem_of_nil in Ha);
      try (by apply elem_of_nil in Hb); by vm_compute in Hid.
  - apply perm_swap.
Defined.

(** X2: rows whose ids have all been seen add nothing: the listing of a
    sequence followed by such rows is the listing of the sequence, whatever
    those later rows carry. *)
Theorem listing_ignores_seen_ids (user : User.t) (rows rows' : list DataSource.t) :
  (∀ ds, ds ∈ rows' → DataSource.id ds ∈ DataSource.id <$> rows) →
  DataSourceListResource.listing user (rows ++ rows')
  = DataSourceListResource.listing user rows.
Proof.
  intros Hseen. unfold DataSourceListResource.listing. do 2 f_equal.
  rewrite foldl_app. apply foldl_visit_seen. intros ds Hin.
  rewrite lookup_response.
  destruct (first_seen_is_Some _ _ (Hseen ds Hin)) as [ds' ->]. by eexists.
Qed.

Lemma listing_ignores_seen_ids_witness :
  let ds5 := sample_source 5 {[ 1 := Read ]} in
  let other5 := sample_source 5 {[ 1 := Write ]} in
  DataSourceListResource.listing sample_member ([ds5] ++ [other5; ds5])
  = DataSourceListResource.listing sample_member [ds5].
Proof.
  intros ds5 other5.
  apply (listing_ignores_seen_ids sample_member [ds5] [other5; ds5]).
  intros ds Hin. apply list_elem_of_fmap. exists ds5. split; [|left].
  apply elem_of_cons in Hin as [->|Hin]; [reflexivity|].
  apply list_elem_of_singleton in Hin as ->. reflexivity.
Defined.

(** X3: the flag only falls as the requester's groups grow: when every group
    of one requester is a group of another and the other sees the data
    source as view-only, so does the one. *)
Theorem view_only_antitone_in_groups (user user' : User.t) (ds : DataSource.t) :
  (∀ g, g ∈ User.groups user → g ∈ User.groups user') →
  DataSourceListResource.view_only (DataSourceListResource.entry_of user' ds) = true →
  DataSourceListResource.view_only (DataSourceListResource.entry_of user ds) = true.
Proof.
  intros Hsub Hv'. apply view_only_true_iff. intros g l Hg Hl.
  eapply view_only_true_iff; [exact Hv'|by apply Hsub|done].
Qed.

Lemma view_only_antitone_in_groups_witness :
  DataSourceListResource.view_only
    (DataSourceListResource.entry_of
       {| User.id := 8; User.groups := [2]; User.permissions := [] |}
       (sample_source 3 {[ 1 := Read; 2 := Read; 4 := Write ]})) = true.
Proof.
  apply (view_only_antitone_in_groups
           {| User.id := 8; User.groups := [2]; User.permissions := [] |}
           sample_member (sample_source 3 {[ 1 := Read; 2 := Read; 4 := Write ]})).
  - intros g Hg. apply list_elem_of_singleton in Hg as ->. right; left.
  - reflexivity.
Defined.

(** X4: the listing has as many entries as the rows have distinct ids; none
    for no rows. *)
Theorem listing_length (user : User.t) (rows : list DataSource.t) :
  length (DataSourceListResource.listing user rows)
  = size (list_to_set (DataSource.id <$> rows) : gset Z).
Proof.
  rewrite <-(length_fmap DataSourceListResource.entry_id).
  rewrite <-(size_list_to_set (C := gset Z)) by apply listing_ids_NoDup.
  f_equal. apply set_eq. intros i.
  rewrite !elem_of_list_to_set. apply listing_ids.
Qed.

(** ** Who may do what, and on which data source *)

Lemma get_by_id_and_org_Some w i org ds :
  get_by_id_and_org w i org = Some ds ↔ db w !! i = Some ds ∧ DataSource.org ds = org.
Proof. apply get_object_or_404_Some. Qed.

Lemma get_by_id_and_org_None w i org :
  (∀ ds, db w !! i = Some ds → DataSource.org ds ≠ org) →
  get_by_id_and_org w i org = None.
Proof.
  intros Hno. destruct (get_by_id_and_org w i org) as [ds|] eqn:Hds; [|done].
  apply get_by_id_and_org_Some in Hds as [Hdb Horg]. by destruct (Hno ds Hdb).
Qed.

Lemma found_id w i org ds :
  well_keyed w → get_by_id_and_org w i org = Some ds → DataSource.id ds = i.
Proof. intros Hw [Hdb _]%get_by_id_and_org_Some. by apply Hw. Qed.

(** X5: a requester without the admin capability is answered 403 by the
    connector-type listing, by get, update and delete of a data source, by
    creation and by pause and resume, and none of them writes anything. *)
Theorem non_admin_is_refused (query_runners : registry) (self : BaseResource)
    (w : World) (i : Z) (req : gmap string json)
    (data : option (gmap string json)) (args : gmap string string) :
  is_admin self = false →
  DataSourceTypeListResource.get query_runners self = Abort 403
  ∧ DataSourceResource.get self w i = Abort 403
  ∧ DataSourceResource.post query_runners self w i req = (w, Abort 403)
  ∧ DataSourceResource.delete self w i = (w, Abort 403)
  ∧ DataSourceListResource.post query_runners self w req = (w, Abort 403)
  ∧ DataSourcePauseResource.post self w i data args = (w, Abort 403)
  ∧ DataSourcePauseResource.delete self w i = (w, Abort 403).
Proof.
  intros Hno.
  unfold DataSourceTypeListResource.get, DataSourceResource.get,
    DataSourceResource.post, DataSourceResource.delete,
    DataSourceListResource.post, DataSourcePauseResource.post,
    DataSourcePauseResource.delete.
  rewrite Hno. repeat split.
Qed.

Lemma non_admin_is_refused_witness :
  DataSourceTypeListResource.get sample_registry sample_member_request = Abort 403
  ∧ DataSourceResource.get sample_member_request sample_world 5 = Abort 403
  ∧ DataSourceResource.post sample_registry sample_member_request sample_world 5
      sample_update = (sample_world, Abort 403)
  ∧ DataSourceResource.delete sample_member_request sample_world 5
    = (sample_world, Abort 403)
  ∧ DataSourceListResource.post sample_registry sample_member_request sample_world
      sample_create = (sample_world, Abort 403)
  ∧ DataSourcePauseResource.post sample_member_request sample_world 5 None ∅
    = (sample_world, Abort 403)
  ∧ DataSourcePauseResource.delete sample_member_request sample_world 5
    = (sample_world, Abort 403).
Proof.
  apply (non_admin_is_refused sample_registry sample_member_request sample_world
           5 sample_update None ∅).
  reflexivity.
Defined.

(** X6: an id that the store does not hold, or holds for another
    organization, is not found: for an administrator get, update and delete
    let [DoesNotExist] escape, pause and resume answer 404, and nothing is
    written; the live-schema operation answers 404 to any requester, before
    any access check. *)
Theorem foreign_or_unknown_id_is_not_found {S : Type}
    (get_schema : DataSource.t → response S) (query_runners : registry)
    (self : BaseResource) (w : World) (i : Z) (req : gmap string json)
    (data : option (gmap string json)) (args : gmap string string) :
  is_admin self = true →
  (∀ ds, db w !! i = Some ds → DataSource.org ds ≠ current_org self) →
  DataSourceResource.get self w i = Raise DoesNotExist
  ∧ DataSourceResource.post query_runners self w i req = (w, Raise DoesNotExist)
  ∧ DataSourceResource.delete self w i = (w, Raise DoesNotExist)
  ∧ DataSourcePauseResource.post self w i data args = (w, Abort 404)
  ∧ DataSourcePauseResource.delete self w i = (w, Abort 404)
  ∧ ∀ other : BaseResource,
      current_org other = current_org self →
      DataSourceSchemaResource.get get_schema other w i = Abort 404.
Proof.
  intros Hadmin Hno. apply get_by_id_and_org_None in Hno.
  unfold DataSourceResource.get, DataSourceResource.post,
    DataSourceResource.delete, DataSourcePauseResource.post,
    DataSourcePauseResource.delete, DataSourceSchemaResource.get,
    get_object_or_404.
  rewrite Hadmin, Hno. repeat split.
  intros other ->. by rewrite Hno.
Qed.

Lemma foreign_or_unknown_id_is_not_found_witness :
  DataSourceResource.get sample_foreign_admin_request sample_world 5
    = Raise DoesNotExist
  ∧ DataSourceResource.post sample_registry sample_foreign_admin_request
      sample_world 5 sample_update = (sample_world, Raise DoesNotExist)
  ∧ DataSourceResource.delete sample_foreign_admin_request sample_world 5
    = (sample_world, Raise DoesNotExist)
  ∧ DataSourcePauseResource.post sample_foreign_admin_request sample_world 5 None ∅
    = (sample_world, Abort 404)
  ∧ DataSourcePauseResource.delete sample_foreign_admin_request sample_world 5
    = (sample_world, Abort 404)
  ∧ ∀ other : BaseResource,
      current_org other = current_org sample_foreign_admin_request →
      DataSourceSchemaResource.get (λ _, Ok ["orders"]) other sample_world 5
      = Abort 404.
Proof.
  apply (foreign_or_unknown_id_is_not_found (λ _, Ok ["orders"]) sample_registry
           sample_foreign_admin_request sample_world 5 sample_update None ∅).
  - reflexivity.
  - intros ds Hds. vm_compute in Hds. injection Hds as <-. vm_compute. discriminate.
Defined.

(** X7: update, delete, pause and resume of one data source leave every
    other stored data source as it was. *)
Theorem other_data_sources_untouched (query_runners : registry)
    (self : BaseResource) (w : World) (i j : Z) (req : gmap string json)
    (data : option (gmap string json)) (args : gmap string string) :
  well_keyed w →
  j ≠ i →
  db (DataSourceResource.post query_runners self w i req).1 !! j = db w !! j
  ∧ db (DataSourceResource.delete self w i).1 !! j = db w !! j
  ∧ db (DataSourcePauseResource.post self w i data args).1 !! j = db w !! j
  ∧ db (DataSourcePauseResource.delete self w i).1 !! j = db w !! j.
Proof.
  intros Hw Hne.
  unfold DataSourceResource.post, DataSourceResource.delete,
    DataSourcePauseResource.post, DataSourcePauseResource.delete,
    get_object_or_404.
  destruct (is_admin self); [|done].
  destruct (get_by_id_and_org w i (current_org self)) as [ds|] eqn:Hds; [|done].
  pose proof (found_id _ _ _ _ Hw Hds) as Hid.
  repeat split.
  - repeat (case_match; simpl; try done). rewrite Hid. by apply lookup_insert_ne.
  - simpl. rewrite Hid. by apply lookup_delete_ne.
  - simpl. rewrite Hid. by apply lookup_insert_ne.
  - simpl. rewrite Hid. by apply lookup_insert_ne.
Qed.

Lemma other_data_sources_untouched_witness :
  db (DataSourceResource.post sample_registry sample_admin_request sample_world 5
        sample_update).1 !! 3 = db sample_world !! 3
  ∧ db (DataSourceResource.delete sample_admin_request sample_world 5).1 !! 3
    = db sample_world !! 3
  ∧ db (DataSourcePauseResource.post sample_admin_request sample_world 5 None ∅).1
    !! 3 = db sample_world !! 3
  ∧ db (DataSourcePauseResource.delete sample_admin_request sample_world 5).1 !! 3
    = db sample_world !! 3.
Proof.
  apply (other_data_sources_untouched sample_registry sample_admin_request
           sample_world 5 3 sample_update None ∅).
  - exact sample_world_well_keyed.
  - discriminate.
Defined.

(** ** The audit trail *)

(** X8: creation, pause and resume record exactly one audit event when they
    succeed, of their action and with the id the response carries, and leave
    the persistent state untouched when they fail. *)
Theorem successful_writes_record_one_event (query_runners : registry)
    (self : BaseResource) (w : World) (i : Z) (req : gmap string json)
    (data : option (gmap string json)) (args : gmap string string) :
  (let '(w', r) := DataSourceListResource.post query_runners self w req in
   match r with
   | Ok d =>
       events w' = (events w ++ [ {| action := "create"; object_id := Dict.id d;
                                     object_type := "datasource" |} ])%list
   | _ => w' = w
   end)
  ∧ (let '(w', r) := DataSourcePauseResource.post self w i data args in
     match r with
     | Ok d =>
         events w' = (events w ++ [ {| action := "pause"; object_id := Dict.id d;
                                       object_type := "datasource" |} ])%list
     | _ => w' = w
     end)
  ∧ (let '(w', r) := DataSourcePauseResource.delete self w i in
     match r with
     | Ok d =>
         events w' = (events w ++ [ {| action := "resume"; object_id := Dict.id d;
                                       object_type := "datasource" |} ])%list
     | _ => w' = w
     end).
Proof.
  unfold DataSourceListResource.post, DataSourcePauseResource.post,
    DataSourcePauseResource.delete.
  repeat split; repeat (case_match; simplify_eq/=; try done).
Qed.

(** X9: update and delete of a data source record no audit event and never
    move the id counter, whether they succeed or fail. *)
Theorem update_and_delete_record_nothing (query_runners : registry)
    (self : BaseResource) (w : World) (i : Z) (req : gmap string json) :
  events (DataSourceResource.post query_runners self w i req).1 = events w
  ∧ next_id (DataSourceResource.post query_runners self w i req).1 = next_id w
  ∧ events (DataSourceResource.delete self w i).1 = events w
  ∧ next_id (DataSourceResource.delete self w i).1 = next_id w.
Proof.
  unfold DataSourceResource.post, DataSourceResource.delete.
  repeat split; repeat (case_match; simpl; try done).
Qed.

(** ** Missing fields *)

(** X10: an update does not check that its fields are there: for an
    administrator and a stored data source, a request that lacks a field the
    handler comes to read lets [KeyError] escape instead of answering 400,
    and nothing is written, not even options that had just validated. *)
Theorem update_missing_field_raises (query_runners : registry)
    (self : BaseResource) (w : World) (i : Z) (req : gmap string json)
    (ds : DataSource.t) :
  is_admin self = true →
  get_by_id_and_org w i (current_org self) = Some ds →
  update_lacks_field query_runners ds req →
  DataSourceResource.post query_runners self w i req = (w, Raise KeyError).
Proof.
  intros Hadmin Hds Hlack. unfold DataSourceResource.post.
  rewrite Hadmin, Hds.
  destruct Hlack as [-> | (type & schema & -> & -> & Hrest)]; [done|].
  destruct Hrest as [-> | (new_options & c & -> & -> & ->)]; done.
Qed.

Lemma update_missing_field_raises_witness :
  DataSourceResource.post sample_registry sample_admin_request sample_world 5
    sample_update_without_name = (sample_world, Raise KeyError).
Proof.
  apply (update_missing_field_raises sample_registry sample_admin_request
           sample_world 5 sample_update_without_name
           (sample_source 5 {[ 1 := Read; 2 := Write; 3 := Read ]})).
  - reflexivity.
  - reflexivity.
  - right. exists (JAtom (AStr "mysql")), sample_schema.
    split; [reflexivity|]. split; [reflexivity|]. right.
    eexists (JObject {[ "port" := ANum 5432 ]}), _.
    split; [reflexivity|]. split; [vm_compute; reflexivity|reflexivity].
Defined.

(** X11: creation checks its fields first: for an administrator a request
    that lacks options, name or type is answered 400 with nothing written,
    whatever the registry holds and whatever the other fields are. *)
Theorem create_missing_field_is_400 (query_runners : registry)
    (self : BaseResource) (w : World) (req : gmap string json) :
  is_admin self = true →
  req !! "options" = None ∨ req !! "name" = None ∨ req !! "type" = None →
  DataSourceListResource.post query_runners self w req = (w, Abort 400).
Proof.
  intros Hadmin Hmiss. unfold DataSourceListResource.post. rewrite Hadmin.
  cbn [existsb DataSourceListResource.required_fields].
  destruct Hmiss as [-> | [-> | ->]];
    rewrite ?bool_decide_eq_true_2 by done;
    by repeat (case_bool_decide; simpl).
Qed.

Lemma create_missing_field_is_400_witness :
  DataSourceListResource.post sample_registry sample_admin_request sample_world
    (base.delete "name" sample_create) = (sample_world, Abort 400).
Proof.
  apply (create_missing_field_is_400 sample_registry sample_admin_request
           sample_world (base.delete "name" sample_create)).
  - reflexivity.
  - right; left. reflexivity.
Defined.

(** ** What a successful write leaves behind *)

Lemma update_post_success query_runners self w i req :
  is_error (DataSourceResource.post query_runners self w i req).2 = false →
  ∃ ds type schema new_options options name,
    get_by_id_and_org w i (current_org self) = Some ds
    ∧ req !! "type" = Some type
    ∧ get_configuration_schema_for_type query_runners type = Some schema
    ∧ req !! "options" = Some new_options
    ∧ ConfigurationContainer.update new_options
        (ConfigurationContainer.set_schema schema (DataSource.options ds))
      = inr options
    ∧ req !! "name" = Some name
    ∧ DataSourceResource.post query_runners self w i req
      = (save (updated ds name type options) w,
         Ok (DataSource.to_dict true (updated ds name type options))).
Proof.
  unfold DataSourceResource.post.
  destruct (is_admin self); [|done].
  destruct (get_by_id_and_org w i (current_org self)) as [ds|]; [|done].
  destruct (req !! "type") as [type|]; [|done].
  destruct (get_configuration_schema_for_type query_runners type)
    as [schema|] eqn:Hschema; [|done].
  destruct (req !! "options") as [new_options|]; [|done].
  destruct (ConfigurationContainer.update new_options _)
    as [e|options] eqn:Hup; [done|].
  destruct (req !! "name") as [name|]; [|done].
  intros _. by exists ds, type, schema, new_options, options, name.
Qed.

(** X12: an update that succeeds stores, under the id of the request, a data
    source with the name and the type of the request; its organization, its
    group mapping and its pause state are those it had, and the response is
    the full serialization of what was stored. *)
Theorem update_writes_request_fields (query_runners : registry)
    (self : BaseResource) (w : World) (i : Z) (req : gmap string json) :
  well_keyed w →
  is_error (DataSourceResource.post query_runners self w i req).2 = false →
  ∃ ds ds',
    get_by_id_and_org w i (current_org self) = Some ds
    ∧ db (DataSourceResource.post query_runners self w i req).1
      = <[i := ds']> (db w)
    ∧ (DataSourceResource.post query_runners self w i req).2
      = Ok (DataSource.to_dict true ds')
    ∧ req !! "name" = Some (DataSource.name ds')
    ∧ req !! "type" = Some (DataSource.type ds')
    ∧ DataSource.id ds' = i
    ∧ DataSource.org ds' = DataSource.org ds
    ∧ DataSource.groups ds' = DataSource.groups ds
    ∧ DataSource.paused ds' = DataSource.paused ds
    ∧ DataSource.pause_reason ds' = DataSource.pause_reason ds.
Proof.
  intros Hw (ds & type & schema & new_options & options & name & Hds & Htype
             & _ & _ & _ & Hname & ->)%update_post_success.
  pose proof (found_id _ _ _ _ Hw Hds) as Hid.
  exists ds, (updated ds name type options). simpl. rewrite Hid.
  by repeat split.
Qed.

Lemma update_writes_request_fields_witness :
  ∃ ds ds',
    get_by_id_and_org sample_world 5 (current_org sample_admin_request) = Some ds
    ∧ db (DataSourceResource.post sample_registry sample_admin_request
            sample_world 5 sample_update_accepted).1
      = <[5 := ds']> (db sample_world)
    ∧ (DataSourceResource.post sample_registry sample_admin_request sample_world
         5 sample_update_accepted).2
      = Ok (DataSource.to_dict true ds')
    ∧ sample_update_accepted !! "name" = Some (DataSource.name ds')
    ∧ sample_update_accepted !! "type" = Some (DataSource.type ds')
    ∧ DataSource.id ds' = 5
    ∧ DataSource.org ds' = DataSource.org ds
    ∧ DataSource.groups ds' = DataSource.groups ds
    ∧ DataSource.paused ds' = DataSource.paused ds
    ∧ DataSource.pause_reason ds' = DataSource.pause_reason ds.
Proof.
  apply (update_writes_request_fields sample_registry sample_admin_request
           sample_world 5 sample_update_accepted).
  - exact sample_world_well_keyed.
  - vm_compute. reflexivity.
Defined.

(** X17: what an administrator reads back after a successful update is what
    the update answered. *)
Theorem update_then_get (query_runners : registry) (self : BaseResource)
    (w : World) (i : Z) (req : gmap string json) :
  well_keyed w →
  is_error (DataSourceResource.post query_runners self w i req).2 = false →
  DataSourceResource.get self
    (DataSourceResource.post query_runners self w i req).1 i
  = (DataSourceResource.post query_runners self w i req).2.
Proof.
  intros Hw Hok.
  assert (is_admin self = true) as Hadmin.
  { unfold DataSourceResource.post in Hok. by destruct (is_admin self). }
  apply update_post_success in Hok
    as (ds & type & schema & new_options & options & name & Hds & _ & _ & _
        & _ & _ & ->).
  pose proof (found_id _ _ _ _ Hw Hds) as Hid.
  apply get_by_id_and_org_Some in Hds as [_ Horg].
  cbn [fst snd]. unfold DataSourceResource.get. rewrite Hadmin.
  assert (get_by_id_and_org (save (updated ds name type options) w) i
            (current_org self) = Some (updated ds name type options)) as ->; [|done].
  apply get_by_id_and_org_Some. simpl. rewrite Hid. split; [|done].
  apply lookup_insert_eq.
Qed.

Lemma update_then_get_witness :
  DataSourceResource.get sample_admin_request
    (DataSourceResource.post sample_registry sample_admin_request sample_world 5
       sample_update_accepted).1 5
  = (DataSourceResource.post sample_registry sample_admin_request sample_world 5
       sample_update_accepted).2.
Proof.
  apply (update_then_get sample_registry sample_admin_request sample_world 5
           sample_update_accepted).
  - exact sample_world_well_keyed.
  - vm_compute. reflexivity.
Defined.

(** X13: a creation that an administrator requests with the three fields
    present, a connector type the registry knows and options that validate
    stores one new data source under the next free id, in the requester's
    organization, with the name, the type and the options of the request and
    the schema the registry has for the type, and answers with its full
    serialization. *)
Theorem create_writes_request_fields (query_runners : registry)
    (self : BaseResource) (w : World) (req : gmap string json) :
  is_admin self = true →
  create_accepted query_runners req = true →
  ∃ ds,
    (DataSourceListResource.post query_runners self w req).2
      = Ok (DataSource.to_dict true ds)
    ∧ db (DataSourceListResource.post query_runners self w req).1
      = <[next_id w := ds]> (db w)
    ∧ DataSource.id ds = next_id w
    ∧ DataSource.org ds = current_org self
    ∧ req !! "name" = Some (DataSource.name ds)
    ∧ req !! "type" = Some (DataSource.type ds)
    ∧ req !! "options"
      = Some (ConfigurationContainer.config (DataSource.options ds))
    ∧ get_configuration_schema_for_type query_runners (DataSource.type ds)
      = Some (ConfigurationContainer.schema (DataSource.options ds))
    ∧ ConfigurationContainer.is_valid (DataSource.options ds) = true.
Proof.
  unfold create_accepted, DataSourceListResource.post. intros -> Hyes.
  cbn [existsb DataSourceListResource.required_fields].
  apply andb_true_iff in Hyes as [[name Hname]%bool_decide_eq_true Hyes].
  destruct (req !! "type") as [type|]; [|done].
  destruct (req !! "options") as [options|]; [|done].
  rewrite Hname, !bool_decide_eq_false_2 by done. cbn [orb].
  destruct (get_configuration_schema_for_type query_runners type)
    as [schema|] eqn:Hschema; [|done].
  rewrite Hyes. simpl. eexists. repeat split; try reflexivity; done.
Qed.

Lemma create_writes_request_fields_witness :
  let req : gmap string json := <[ "type" := JAtom (AStr "mysql") ]> sample_create in
  ∃ ds,
    (DataSourceListResource.post sample_registry sample_admin_request
       sample_world req).2
      = Ok (DataSource.to_dict true ds)
    ∧ db (DataSourceListResource.post sample_registry sample_admin_request
            sample_world req).1
      = <[next_id sample_world := ds]> (db sample_world)
    ∧ DataSource.id ds = next_id sample_world
    ∧ DataSource.org ds = current_org sample_admin_request
    ∧ req !! "name" = Some (DataSource.name ds)
    ∧ req !! "type" = Some (DataSource.type ds)
    ∧ req !! "options"
      = Some (ConfigurationContainer.config (DataSource.options ds))
    ∧ get_configuration_schema_for_type sample_registry (DataSource.type ds)
      = Some (ConfigurationContainer.schema (DataSource.options ds))
    ∧ ConfigurationContainer.is_valid (DataSource.options ds) = true.
Proof.
  intros req.
  apply (create_writes_request_fields sample_registry sample_admin_request
           sample_world req).
  - reflexivity.
  - vm_compute. reflexivity.
Defined.

(** X16: what an administrator reads back under the new id after a
    successful creation is what the creation answered. *)
Theorem create_then_get (query_runners : registry) (self : BaseResource)
    (w : World) (req : gmap string json) :
  is_admin self = true →
  create_accepted query_runners req = true →
  DataSourceResource.get self
    (DataSourceListResource.post query_runners self w req).1 (next_id w)
  = (DataSourceListResource.post query_runners self w req).2.
Proof.
  unfold create_accepted, DataSourceListResource.post. intros Hadmin Hyes.
  rewrite Hadmin.
  cbn [existsb DataSourceListResource.required_fields].
  apply andb_true_iff in Hyes as [[name Hname]%bool_decide_eq_true Hyes].
  destruct (req !! "type") as [type|]; [|done].
  destruct (req !! "options") as [options|]; [|done].
  rewrite Hname, !bool_decide_eq_false_2 by done. cbn [orb].
  destruct (get_configuration_schema_for_type query_runners type); [|done].
  rewrite Hyes. simpl.
  unfold DataSourceResource.get, get_by_id_and_org. rewrite Hadmin. simpl.
  rewrite lookup_insert_eq. simpl. by rewrite bool_decide_eq_true_2.
Qed.

Lemma create_then_get_witness :
  let req : gmap string json := <[ "type" := JAtom (AStr "mysql") ]> sample_create in
  DataSourceResource.get sample_admin_request
    (DataSourceListResource.post sample_registry sample_admin_request
       sample_world req).1 (next_id sample_world)
  = (DataSourceListResource.post sample_registry sample_admin_request
       sample_world req).2.
Proof.
  intros req.
  apply (create_then_get sample_registry sample_admin_request sample_world req).
  - reflexivity.
  - vm_compute. reflexivity.
Defined.

(** ** Pause, resume and delete, composed *)

(** X14: pausing an Active data source that carries no reason and then
    resuming it puts the store back as it was, whatever reason the pause
    gave. *)
Theorem pause_then_resume_restores (self : BaseResource) (w : World) (i : Z)
    (ds : DataSource.t) (data : option (gmap string json))
    (args : gmap string string) :
  well_keyed w →
  is_admin self = true →
  get_object_or_404 w i (current_org self) = Some ds →
  DataSource.paused ds = false →
  DataSource.pause_reason ds = None →
  db (DataSourcePauseResource.delete self
        (DataSourcePauseResource.post self w i data args).1 i).1
  = db w.
Proof.
  intros Hw Hadmin Hds Hactive Hreason.
  rewrite (pause_post_found _ _ _ _ _ _ Hadmin Hds). cbn [fst].
  erewrite resume_delete_found; [|done|by eapply get_after_save].
  pose proof (proj1 (get_object_or_404_Some _ _ _ _) Hds) as [Hdb _].
  pose proof (Hw _ _ Hdb) as Hid.
  simpl. rewrite Hid, insert_insert_eq.
  apply insert_id. rewrite Hdb. f_equal.
  destruct ds; simpl in *; by subst.
Qed.

Lemma pause_then_resume_restores_witness :
  db (DataSourcePauseResource.delete sample_admin_request
        (DataSourcePauseResource.post sample_admin_request sample_world 5
           (Some {[ "reason" := JAtom (AStr "maintenance") ]}) ∅).1 5).1
  = db sample_world.
Proof.
  apply (pause_then_resume_restores sample_admin_request sample_world 5
           (sample_source 5 {[ 1 := Read; 2 := Write; 3 := Read ]})).
  - exact sample_world_well_keyed.
  - reflexivity.
  - reflexivity.
  - reflexivity.
  - reflexivity.
Defined.

(** X15: a pause request with a body that is not empty never looks at the
    query parameters, not even when the body names no reason; a pause
    request with an empty body is treated as one without a body. *)
Theorem pause_body_overrides_query (self : BaseResource) (w : World) (i : Z)
    (body : gmap string json) (args args' : gmap string string) :
  body ≠ ∅ →
  DataSourcePauseResource.post self w i (Some body) args
  = DataSourcePauseResource.post self w i (Some body) args'
  ∧ DataSourcePauseResource.post self w i (Some ∅) args
    = DataSourcePauseResource.post self w i None args.
Proof.
  intros Hbody. unfold DataSourcePauseResource.post,
    DataSourcePauseResource.request_reason.
  rewrite (bool_decide_eq_false_2 _ Hbody). done.
Qed.

Lemma pause_body_overrides_query_witness :
  DataSourcePauseResource.post sample_admin_request sample_world 5
    (Some {[ "notify" := JAtom (ABool true) ]}) {[ "reason" := "migration" ]}
  = DataSourcePauseResource.post sample_admin_request sample_world 5
      (Some {[ "notify" := JAtom (ABool true) ]}) ∅
  ∧ DataSourcePauseResource.post sample_admin_request sample_world 5
      (Some ∅) {[ "reason" := "migration" ]}
    = DataSourcePauseResource.post sample_admin_request sample_world 5
        None {[ "reason" := "migration" ]}.
Proof.
  apply (pause_body_overrides_query sample_admin_request sample_world 5
           {[ "notify" := JAtom (ABool true) ]}).
  apply insert_non_empty.
Defined.

(** X18: after a pause request that carries a reason (in its body, or in
    the query parameter when there is no body) or carries none, an
    administrator's get shows the data source Paused with exactly that
    reason; after a resume it shows it Active with no reason; name, type and
    options are in both cases those stored before. *)
Theorem pause_resume_then_get (self : BaseResource) (w : World) (i : Z)
    (ds : DataSource.t) (data : option (gmap string json))
    (args : gmap string string) (reason : option json) :
  well_keyed w →
  is_admin self = true →
  get_object_or_404 w i (current_org self) = Some ds →
  carries_reason data args reason →
  (∃ d,
     DataSourceResource.get self
       (DataSourcePauseResource.post self w i data args).1 i = Ok d
     ∧ Dict.paused d = true
     ∧ Dict.pause_reason d = reason
     ∧ Dict.name d = DataSource.name ds
     ∧ Dict.type d = DataSource.type ds
     ∧ Dict.options d = ConfigurationContainer.config (DataSource.options ds))
  ∧ (∃ d,
       DataSourceResource.get self (DataSourcePauseResource.delete self w i).1 i
       = Ok d
       ∧ Dict.paused d = false
       ∧ Dict.pause_reason d = None
       ∧ Dict.name d = DataSource.name ds
       ∧ Dict.type d = DataSource.type ds
       ∧ Dict.options d = ConfigurationContainer.config (DataSource.options ds)).
Proof.
  intros Hw Hadmin Hds Hreason%request_reason_carries.
  rewrite (pause_post_found _ _ _ _ _ _ Hadmin Hds),
    (resume_delete_found _ _ _ _ Hadmin Hds), Hreason. cbn [fst].
  unfold DataSourceResource.get. rewrite Hadmin.
  split.
  - pose proof (get_after_save w i (current_org self) ds
        (DataSource.pause reason ds)
        {| action := "pause"; object_id := DataSource.id ds;
           object_type := "datasource" |} Hw Hds eq_refl eq_refl) as Hget.
    unfold get_object_or_404 in Hget. rewrite Hget. by eexists.
  - pose proof (get_after_save w i (current_org self) ds (DataSource.resume ds)
        {| action := "resume"; object_id := DataSource.id ds;
           object_type := "datasource" |} Hw Hds eq_refl eq_refl) as Hget.
    unfold get_object_or_404 in Hget. rewrite Hget. by eexists.
Qed.

Lemma pause_resume_then_get_witness :
  let ds := sample_source 5 {[ 1 := Read; 2 := Write; 3 := Read ]} in
  (∃ d,
     DataSourceResource.get sample_admin_request
       (DataSourcePauseResource.post sample_admin_request sample_world 5 None
          {[ "reason" := "migration" ]}).1 5 = Ok d
     ∧ Dict.paused d = true
     ∧ Dict.pause_reason d = Some (JAtom (AStr "migration"))
     ∧ Dict.name d = DataSource.name ds
     ∧ Dict.type d = DataSource.type ds
     ∧ Dict.options d = ConfigurationContainer.config (DataSource.options ds))
  ∧ (∃ d,
       DataSourceResource.get sample_admin_request
         (DataSourcePauseResource.delete sample_admin_request sample_world 5).1 5
       = Ok d
       ∧ Dict.paused d = false
       ∧ Dict.pause_reason d = None
       ∧ Dict.name d = DataSource.name ds
       ∧ Dict.type d = DataSource.type ds
       ∧ Dict.options d = ConfigurationContainer.config (DataSource.options ds)).
Proof.
  intros ds.
  apply (pause_resume_then_get sample_admin_request sample_world 5 ds None
           {[ "reason" := "migration" ]} (Some (JAtom (AStr "migration")))).
  - exact sample_world_well_keyed.
  - reflexivity.
  - reflexivity.
  - by apply reason_in_query.
Defined.

(** X19: a delete that finds the data source answers with the empty
    response and takes it out of the store: afterwards get and a second
    delete let [DoesNotExist] escape and pause and resume answer 404. *)
Theorem delete_then_not_found (self : BaseResource) (w : World) (i : Z)
    (ds : DataSource.t) (data : option (gmap string json))
    (args : gmap string string) :
  well_keyed w →
  is_admin self = true →
  get_by_id_and_org w i (current_org self) = Some ds →
  let w' := (DataSourceResource.delete self w i).1 in
  (DataSourceResource.delete self w i).2 = Ok ()
  ∧ db w' = base.delete i (db w)
  ∧ DataSourceResource.get self w' i = Raise DoesNotExist
  ∧ DataSourceResource.delete self w' i = (w', Raise DoesNotExist)
  ∧ DataSourcePauseResource.post self w' i data args = (w', Abort 404)
  ∧ DataSourcePauseResource.delete self w' i = (w', Abort 404).
Proof.
  intros Hw Hadmin Hds w'.
  pose proof (found_id _ _ _ _ Hw Hds) as Hid.
  assert (DataSourceResource.delete self w i
          = ({| db := base.delete i (db w); next_id := next_id w;
                events := events w |}, Ok ())) as Hdel.
  { unfold DataSourceResource.delete. by rewrite Hadmin, Hds, Hid. }
  unfold w'. rewrite Hdel. cbn [fst snd].
  assert (get_by_id_and_org
            {| db := base.delete i (db w); next_id := next_id w;
               events := events w |} i (current_org self) = None) as Hgone.
  { unfold get_by_id_and_org. simpl. by rewrite lookup_delete_eq. }
  unfold DataSourceResource.get, DataSourceResource.delete,
    DataSourcePauseResource.post, DataSourcePauseResource.delete,
    get_object_or_404.
  rewrite Hadmin, Hgone. by repeat split.
Qed.

Lemma delete_then_not_found_witness :
  let w' := (DataSourceResource.delete sample_admin_request sample_world 5).1 in
  (DataSourceResource.delete sample_admin_request sample_world 5).2 = Ok ()
  ∧ db w' = base.delete 5 (db sample_world)
  ∧ DataSourceResource.get sample_admin_request w' 5 = Raise DoesNotExist
  ∧ DataSourceResource.delete sample_admin_request w' 5 = (w', Raise DoesNotExist)
  ∧ DataSourcePauseResource.post sample_admin_request w' 5 None ∅
    = (w', Abort 404)
  ∧ DataSourcePauseResource.delete sample_admin_request w' 5 = (w', Abort 404).
Proof.
  apply (delete_then_not_found sample_admin_request sample_world 5
           (sample_source 5 {[ 1 := Read; 2 := Write; 3 := Read ]}) None ∅).
  - exact sample_world_well_keyed.
  - reflexivity.
  - reflexivity.
Defined.

(** ** The connector-type listing of a sorted registry *)

Section sorted_of_sorted.
Context {A K : Type} (key : A → K) (le : relation K).
Context `{!∀ x y, Decision (le x y)}.

Lemma sorted_of_StronglySorted l :
  StronglySorted (λ a b, le (key a) (key b)) l → sorted key le l = l.
Proof.
  induction 1 as [|x l Hl IH Hx]; [done|].
  unfold sorted in *. simpl. rewrite IH.
  destruct l as [|y l]; [done|]. simpl.
  apply Forall_cons in Hx as [Hxy _]. by rewrite decide_True.
Qed.
End sorted_of_sorted.

(** X20: a registry that already enumerates its connector types in
    ascending order of display name is listed in that very order. *)
Theorem type_list_of_sorted_registry (query_runners : registry)
    (self : BaseResource) :
  is_admin self = true →
  StronglySorted (λ a b, (QueryRunner.name a ≤ QueryRunner.name b)%string)
    query_runners.*2 →
  DataSourceTypeListResource.get query_runners self
  = Ok (QueryRunner.to_dict <$> query_runners.*2).
Proof.
  intros Hadmin Hsorted. unfold DataSourceTypeListResource.get.
  by rewrite Hadmin, sorted_of_StronglySorted.
Qed.

Lemma type_list_of_sorted_registry_witness :
  let query_runners : registry :=
    [ ("rds_mysql", sample_runner "rds_mysql" "MySQL");
      ("mysql", sample_runner "mysql" "MySQL");
      ("sqlite", sample_runner "sqlite" "Sqlite") ] in
  DataSourceTypeListResource.get query_runners sample_admin_request
  = Ok (QueryRunner.to_dict <$> query_runners.*2).
Proof.
  intros query_runners.
  apply (type_list_of_sorted_registry query_runners sample_admin_request).
  - reflexivity.
  - repeat constructor.
Defined.
